(** * The conversion engine of the SMS video converter

    A shallow embedding of [sms_video_converter.py] (and of the places where
    the older [ps2_sms_converter.py] differs from it), followed by the
    properties of the engine: geometry, subtitle resolution, parameter
    planning, the transcode runner and the batch loop.

    Conventions of the embedding.
    - A Python [int] is a [Z]; a Python [float] is a primitive binary64
      [float], the same IEEE 754 format CPython uses.
    - A Python [str] is a [string]; its characters stand for the code points
      U+0000 to U+00FF.  [bytes] are [list byte].  Decoding of the
      transcoder's diagnostic bytes ([bytes.decode("utf-8", errors="ignore")])
      is a parameter of the runner, so every statement about the runner
      holds whatever the decoder does.
    - Exceptions are values of [exn]; a computation that may raise returns a
      [result].
    - The file system, the console and the child process are explicit: a
      [world] is threaded through the batch loop, and the transcoder is an
      oracle from its command line to what it writes and how it exits.
    - [os.path] is the POSIX one.
    - The keyboard is the list of the lines not yet read; a call that reads
      it ends in an [outcome], which carries what is left of the lines and
      what has been shown on the console. *)

From Stdlib Require Import ZArith Lia List Bool Ascii String DecimalString.
From Stdlib Require Import Strings.Byte.
From Stdlib Require DecimalFacts DecimalPos.
From Stdlib Require Import Uint63 Floats.PrimFloat Floats.SpecFloat Floats.FloatOps.
Import ListNotations.

Set Warnings "-inexact-float".

Local Open Scope string_scope.
Local Open Scope Z_scope.

(** ** Exceptions and results *)

Inductive exn : Type :=
| IndexError
| ZeroDivisionError
| OverflowError
| TypeError
| ValueError
| Exception (msg : string).

Inductive result (A : Type) : Type :=
| Ok (a : A)
| Raise (e : exn).

Arguments Ok {A} a.
Arguments Raise {A} e.

Definition bind {A B : Type} (c : result A) (k : A -> result B) : result B :=
  match c with
  | Ok a => k a
  | Raise e => Raise e
  end.

Notation "x <- c ;; k" := (bind c (fun x => k))
  (at level 61, c at next level, right associativity).


(** ** The Python primitives the program uses *)

Module Py.

(** [str(n)] for an integer. *)
Definition str (n : Z) : string := NilZero.string_of_int (Z.to_int n).

(** [len(s)]. *)
Definition len (s : string) : Z := Z.of_nat (String.length s).

Fixpoint repeat_char (c : ascii) (n : nat) : string :=
  match n with
  | O => ""
  | S n' => String c (repeat_char c n')
  end.

(** [s.rjust(width, fillchar)]. *)
Definition rjust (s : string) (width : Z) (fillchar : ascii) : string :=
  repeat_char fillchar (Z.to_nat (width - len s)) ++ s.

(** Decimal digits: in the code points below U+0100 the class [\d] and the
    digits [int()] accepts are ['0'] to ['9']. *)
Definition digit_value (c : ascii) : option Z :=
  let n := Z.of_N (N_of_ascii c) in
  if (48 <=? n) && (n <=? 57) then Some (n - 48) else None.

Definition is_digit (c : ascii) : bool :=
  match digit_value c with
  | Some _ => true
  | None => false
  end.

Fixpoint int_digits (acc : Z) (s : string) : option Z :=
  match s with
  | "" => Some acc
  | String c r =>
      match digit_value c with
      | Some d => int_digits (10 * acc + d) r
      | None => None
      end
  end.

(** [int(s)] on the strings the program converts, which are runs of digits
    cut out by a regular expression.  Anything else (and the empty string)
    is a [ValueError]; signs, blanks and underscores, which [int()] also
    reads, never reach it here.  The bound the interpreter can put on the
    length of a digit string (4300 digits unless configured otherwise) is
    left out. *)
Definition int (s : string) : result Z :=
  match s with
  | "" => Raise ValueError
  | _ =>
      match int_digits 0 s with
      | Some n => Ok n
      | None => Raise ValueError
      end
  end.

(** [str.isspace] on one character, for the code points below U+0100. *)
Definition isspace (c : ascii) : bool :=
  let n := Z.of_N (N_of_ascii c) in
  ((9 <=? n) && (n <=? 13)) || ((28 <=? n) && (n <=? 32))
  || (n =? 133) || (n =? 160).

Fixpoint lstrip (s : string) : string :=
  match s with
  | "" => ""
  | String c r => if isspace c then lstrip r else s
  end.

Fixpoint rstrip (s : string) : string :=
  match s with
  | "" => ""
  | String c r =>
      match rstrip r with
      | "" => if isspace c then "" else String c ""
      | r' => String c r'
      end
  end.

(** [s.strip()]. *)
Definition strip (s : string) : string := rstrip (lstrip s).

(** [str.lower] on one character, for the code points below U+0100. *)
Definition lower_char (c : ascii) : ascii :=
  let n := N_of_ascii c in
  if ((65 <=? n) && (n <=? 90))%N
     || ((192 <=? n) && (n <=? 222) && negb (n =? 215))%N
  then ascii_of_N (n + 32)
  else c.

Fixpoint lower (s : string) : string :=
  match s with
  | "" => ""
  | String c r => String (lower_char c) (lower r)
  end.

(** [needle in hay] for two strings. *)
Fixpoint contains (needle hay : string) : bool :=
  String.prefix needle hay ||
  match hay with
  | "" => false
  | String _ r => contains needle r
  end.

(** [s.split(sep)] for a separator of one character. *)
Fixpoint split (sep : ascii) (s : string) : list string :=
  match s with
  | "" => [""]
  | String c r =>
      if Ascii.eqb c sep then "" :: split sep r
      else
        match split sep r with
        | [] => [String c ""]
        | p :: ps => String c p :: ps
        end
  end.

(** [x in t] for a tuple of strings. *)
Definition str_in (x : string) (t : list string) : bool :=
  existsb (String.eqb x) t.

(** [l[i]]: positions count from the front when [i] is not negative and
    from the back when it is; anything else is an [IndexError]. *)
Definition getitem {A : Type} (l : list A) (i : Z) : result A :=
  let n := Z.of_nat (List.length l) in
  let j := if i <? 0 then i + n else i in
  if (j <? 0) || (n <=? j) then Raise IndexError
  else
    match nth_error l (Z.to_nat j) with
    | Some a => Ok a
    | None => Raise IndexError
    end.

(** *** Floating point *)

(** An integer below [2 ^ 53] in magnitude is a double as it stands. *)
Definition small (a : Z) : bool := Z.abs a <? 2 ^ 53.

Definition float_of_small (a : Z) : float :=
  let x := of_uint63 (Uint63.of_Z (Z.abs a)) in
  if a <? 0 then (- x)%float else x.

(** The quotient of two positive integers rounded to the nearest double,
    ties to even: the quotient is taken with at least 56 significant bits
    and a sticky bit, then rounded once. *)
Definition round_quotient (a b : Z) : spec_float :=
  let k := Z.max 0 (Z.log2 b - Z.log2 a + 56) in
  let n := a * 2 ^ k in
  let m := 2 * (n / b) + (if n mod b =? 0 then 0 else 1) in
  binary_normalize prec emax m (- (k + 1)) false.

(** The least magnitude that rounds beyond the largest double. *)
Definition overflow_threshold : Z := 2 ^ 1024 - 2 ^ 970.

(** [a / b] for two integers: true division, correctly rounded.  As in
    CPython, two operands that are doubles as they stand are divided as
    doubles; otherwise the exact quotient is rounded, and a quotient beyond
    the largest double is an [OverflowError]. *)
Definition truediv (a b : Z) : result float :=
  if b =? 0 then Raise ZeroDivisionError
  else if small a && small b then Ok (float_of_small a / float_of_small b)%float
  else if overflow_threshold * Z.abs b <=? Z.abs a then Raise OverflowError
  else
    let x := SF2Prim (round_quotient (Z.abs a) (Z.abs b)) in
    Ok (if xorb (a <? 0) (b <? 0) then (- x)%float else x).

(** [int(x)] for a float: truncation toward zero.  A finite double is
    [m * 2 ^ e]; its integer part is [m] shifted by [e]. *)
Definition int_of_float (x : float) : result Z :=
  match Prim2SF x with
  | S754_nan => Raise ValueError
  | S754_infinity _ => Raise OverflowError
  | S754_zero _ => Ok 0
  | S754_finite s m e =>
      let v :=
        if 0 <=? e then Z.shiftl (Z.pos m) e else Z.shiftr (Z.pos m) (- e) in
      Ok (if s then - v else v)
  end.

(** *** [os.path] (POSIX) *)

Definition sep : ascii := "/"%char.
Definition extsep : ascii := "."%char.

Fixpoint has_char (c : ascii) (s : string) : bool :=
  match s with
  | "" => false
  | String d r => Ascii.eqb c d || has_char c r
  end.

(** [os.path.basename(p)]: what follows the last separator. *)
Fixpoint basename (p : string) : string :=
  match p with
  | "" => ""
  | String c r =>
      if has_char sep r then basename r
      else if Ascii.eqb c sep then r else p
  end.

(** The part of [p] up to and including the last separator. *)
Fixpoint dirpart (p : string) : string :=
  match p with
  | "" => ""
  | String c r =>
      if has_char sep r then String c (dirpart r)
      else if Ascii.eqb c sep then String c "" else ""
  end.

(** A file name cut at its last dot, when a character other than a dot
    comes before that dot. *)
Fixpoint split_last_dot (seen : bool) (b : string) : option (string * string) :=
  match b with
  | "" => None
  | String c r =>
      let seen' := seen || negb (Ascii.eqb c extsep) in
      match split_last_dot seen' r with
      | Some (root, ext) => Some (String c root, ext)
      | None => if Ascii.eqb c extsep && seen then Some ("", b) else None
      end
  end.

(** [os.path.splitext(p)]. *)
Definition splitext (p : string) : string * string :=
  match split_last_dot false (basename p) with
  | Some (root, ext) => (dirpart p ++ root, ext)
  | None => (p, "")
  end.

(** [os.path.join(a, b)]. *)
Definition join (a b : string) : string :=
  if String.prefix "/" b then b
  else if String.eqb a "" || String.eqb (String.substring (String.length a - 1) 1 a) "/"
       then a ++ b
       else a ++ "/" ++ b.

End Py.

(** ** The two regular expressions of the runner *)

Module Re.

(** The longest run of digits at the head of [s], and the rest. *)
Fixpoint span_digits (s : string) : string * string :=
  match s with
  | "" => ("", "")
  | String c r =>
      if Py.is_digit c
      then let (d, rest) := span_digits r in (String c d, rest)
      else ("", s)
  end.

(** [\d+] followed by the character [c].  The run is the longest one: a
    shorter run is followed by a digit, never by [c], so the greedy choice
    is the only one a backtracking matcher can succeed with. *)
Definition digits_then (c : ascii) (s : string) : option (string * string) :=
  match span_digits s with
  | ("", _) => None
  | (d, String x rest) => if Ascii.eqb x c then Some (d, rest) else None
  | (_, "") => None
  end.

(** [(\d+:\d+:\d+\.\d+)] matched at the head of [s]: the text of the group. *)
Definition match_timestamp (s : string) : option string :=
  match digits_then ":" s with
  | None => None
  | Some (h, s1) =>
      match digits_then ":" s1 with
      | None => None
      | Some (m, s2) =>
          match digits_then "." s2 with
          | None => None
          | Some (sec, s3) =>
              match span_digits s3 with
              | ("", _) => None
              | (f, _) => Some (h ++ ":" ++ m ++ ":" ++ sec ++ "." ++ f)
              end
          end
      end
  end.

(** [s] without its first [n] characters. *)
Fixpoint skip (n : nat) (s : string) : string :=
  match n, s with
  | O, _ => s
  | S n', String _ r => skip n' r
  | S _, "" => ""
  end.

(** The match of [literal(\d+:\d+:\d+\.\d+)] at the head of [s]. *)
Definition match_here (literal s : string) : option string :=
  if String.prefix literal s
  then match_timestamp (skip (String.length literal) s)
  else None.

(** [re.search(literal + r'(\d+:\d+:\d+\.\d+)', line)]: group 1 of the
    leftmost match, or [None]. *)
Fixpoint search (literal line : string) : option string :=
  match match_here literal line with
  | Some g => Some g
  | None =>
      match line with
      | "" => None
      | String _ r => search literal r
      end
  end.

End Re.

(** ** Constants of the program *)

Definition VIDEO_EXTS : list string :=
  [".mkv"; ".mp4"; ".avi"; ".rmvb"; ".rm"; ".mov"; ".flv"; ".mpg"; ".mpeg"; ".wmv"].
Definition SUBTITLE_EXTS : list string := [".ass"; ".ssa"; ".srt"].
Definition RESOLUTION_4BY3 : string := "640x480".
Definition RESOLUTION_16BY9 : string := "854x480".
Definition AUDIO_BITRATE : string := "192k".

(** The same constant in [ps2_sms_converter.py] (version 1.0). *)
Module Ps2.
Definition SUBTITLE_EXTS : list string := [".ass"; ".srt"].
End Ps2.

Definition CR : string := String "013"%char "".
Definition NL : string := String "010"%char "".

(** ** Data *)

(** What the probe reports for the first video stream. *)
Record resolution : Type := { width : Z; height : Z }.

(** One subtitle stream as the probe reports it. *)
Record stream : Type := { index : Z }.

(** An entry of [source_list]. *)
Record source : Type := {
  video : string;
  ratio : float;
  crop_cmd : string;
  subtitles : list stream
}.

(** [subtitle_choice]: [None], ['ext'], or the number of an internal track. *)
Inductive choice : Type :=
| NoSubtitle
| External
| Internal (n : Z).

Record options : Type := {
  v_bitrate : string;
  should_crop : bool;
  subtitle_choice : choice;
  overwrite_output : bool
}.

(** The console and the files the batch can see: [files] are the paths for
    which [os.path.exists] holds, [listing] is [os.listdir(base_dir)],
    [stdout] is what has been printed, oldest first. *)
Record world : Type := {
  files : list string;
  listing : list string;
  stdout : list string
}.

(** [os.path.exists(p)]. *)
Definition exists_ (w : world) (p : string) : bool :=
  existsb (String.eqb p) (files w).

Definition print (text : string) (w : world) : world :=
  {| files := files w; listing := listing w;
     stdout := (stdout w ++ [text])%list |}.

(** [os.remove(p)] of a file that exists. *)
Definition remove (p : string) (w : world) : world :=
  {| files := filter (fun q => negb (String.eqb q p)) (files w);
     listing := listing w; stdout := stdout w |}.

Definition create (p : string) (w : world) : world :=
  {| files := if exists_ w p then files w else p :: files w;
     listing := listing w; stdout := stdout w |}.

(** A finished run of the transcoder: the bytes of its diagnostic stream up
    to end of file, its exit code, and whether it left its output file. *)
Record child : Type := {
  stderr : list byte;
  returncode : Z;
  wrote_output : bool
}.

(** Truth value of a [str or None]. *)
Definition truthy (s : option string) : bool :=
  match s with
  | Some (String _ _) => true
  | _ => false
  end.

(** The string of a [str or None] that is true. *)
Definition text (s : option string) : string :=
  match s with
  | Some t => t
  | None => ""
  end.

(** ** Geometry: [calculate_cropping] and the scan of [get_sources] *)

Definition calculate_cropping (res : resolution) : result string :=
  third <- Py.truediv (height res) 3 ;;
  output_width <- Py.int_of_float (third * 4)%float ;;
  half <- Py.truediv (width res - output_width) 2 ;;
  cropped_width <- Py.int_of_float half ;;
  Ok ("crop=" ++ Py.str output_width ++ ":" ++ Py.str (height res) ++ ":"
      ++ Py.str cropped_width ++ ":0").

(** The entry [get_sources] appends for one video file. *)
Definition source_entry (each_file : string) (res : resolution)
    (subs : list stream) : result source :=
  r <- Py.truediv (height res) (width res) ;;
  c <- calculate_cropping res ;;
  Ok {| video := Py.basename each_file; ratio := r; crop_cmd := c;
        subtitles := subs |}.

(** The loop of [get_sources] over [files_list]; [probe] is [probe_source]. *)
Fixpoint scan (probe : string -> resolution * list stream)
    (files_list : list string) : result (list source) :=
  match files_list with
  | [] => Ok []
  | each_file :: rest =>
      let each_ext := Py.lower (snd (Py.splitext each_file)) in
      if Py.str_in each_ext VIDEO_EXTS then
        let (res, subs) := probe each_file in
        e <- source_entry each_file res subs ;;
        l <- scan probe rest ;;
        Ok (e :: l)
      else scan probe rest
  end.

(** ** Subtitles *)

(** The test of the loop of [has_external_subtitle] on one file. *)
Definition subtitle_match (exts : list string) (source each_file : string) : bool :=
  let (each_name, each_ext) := Py.splitext each_file in
  let each_ext := Py.lower each_ext in
  let source_name := fst (Py.splitext source) in
  Py.str_in each_ext exts && Py.contains source_name each_name.

(** [has_external_subtitle], over the listing of [base_dir] and the tuple of
    extensions. *)
Fixpoint external_subtitle (exts : list string) (files : list string)
    (source : string) : option string :=
  match files with
  | [] => None
  | each_file :: rest =>
      if subtitle_match exts source each_file
      then Some ("subtitles=" ++ Py.basename each_file)
      else external_subtitle exts rest source
  end.

Definition has_external_subtitle (w : world) (source : string) : option string :=
  external_subtitle SUBTITLE_EXTS (listing w) source.

Definition not_found_message (subtitle_choice : Z) : string :=
  "# Subtitle stream " ++ Py.str subtitle_choice ++ " not found" ++ NL.

(** [has_internal_subtitle]: only an [IndexError] is caught. *)
Definition has_internal_subtitle (source : string) (subtitle_streams : list stream)
    (subtitle_choice : Z) (w : world) : world * result (option string) :=
  match Py.getitem subtitle_streams subtitle_choice with
  | Ok _ =>
      (w, Ok (Some ("subtitles=" ++ source ++ ":si=" ++ Py.str subtitle_choice)))
  | Raise IndexError => (print (not_found_message subtitle_choice) w, Ok None)
  | Raise e => (w, Raise e)
  end.

(** ** Planning: the resolution and crop chosen in [main] *)

Definition plan (should_crop : bool) (each_source : source) : option string * string :=
  let crop : option string := None in
  let resolution := RESOLUTION_16BY9 in
  let '(crop, resolution) :=
    if should_crop && (ratio each_source <? 0.65)%float
    then (Some (crop_cmd each_source), RESOLUTION_4BY3)
    else (crop, resolution) in
  let resolution :=
    if (0.7 <=? ratio each_source)%float then RESOLUTION_4BY3 else resolution in
  (crop, resolution).

(** ** The transcode runner: [convert] *)

(** The variable [duration] of [convert]: [None], then for an instant the
    text [HH:MM:SS], then the number of seconds. *)
Inductive duration_value : Type :=
| DNone
| DStr (s : string)
| DInt (n : Z).

Definition is_none (d : duration_value) : bool :=
  match d with
  | DNone => true
  | _ => false
  end.

Definition ftr : list Z := [3600; 60; 1].

(** [[a * b for a, b in zip(ftr, map(int, parts))]]: [zip] stops at the
    shorter of the two, and [int] runs only on the parts it reaches. *)
Fixpoint weighted (ftr : list Z) (parts : list string) : result (list Z) :=
  match ftr, parts with
  | a :: ftr', p :: parts' =>
      b <- Py.int p ;;
      rest <- weighted ftr' parts' ;;
      Ok (a * b :: rest)
  | _, _ => Ok []
  end.

Definition sum (l : list Z) : Z := fold_left Z.add l 0.

(** [sum([a * b for a, b in zip(ftr, map(int, hms.split(':')))])]. *)
Definition seconds (hms : string) : result Z :=
  l <- weighted ftr (Py.split ":" hms) ;;
  Ok (sum l).

(** [current_time / duration * 100] truncated by [int]. *)
Definition percentage (current_time : Z) (duration : duration_value) : result Z :=
  match duration with
  | DInt d =>
      q <- Py.truediv current_time d ;;
      Py.int_of_float (q * 100)%float
  | _ => Raise TypeError
  end.

(** The state of the read loop; [printed] is what the loop has printed. *)
Record state : Type := {
  duration : duration_value;
  buffer : list byte;
  all_stderr : string;
  printed : list string
}.

Definition initial : state :=
  {| duration := DNone; buffer := []; all_stderr := ""; printed := [] |}.

Definition set_duration (d : duration_value) (st : state) : state :=
  {| duration := d; buffer := buffer st; all_stderr := all_stderr st;
     printed := printed st |}.

Definition emit (text : string) (st : state) : state :=
  {| duration := duration st; buffer := buffer st; all_stderr := all_stderr st;
     printed := (printed st ++ [text])%list |}.

(** The statements under [if 'Duration' in line and duration is None]: the
    new value of [duration], and the exception that left the block, if any. *)
Definition scan_duration (line : string) (d : duration_value)
    : duration_value * option exn :=
  if Py.contains "Duration" line && is_none d then
    match Re.search "Duration: " line with
    | Some g =>
        match Py.getitem (Py.split "." g) 0 with
        | Raise e => (d, Some e)
        | Ok hms =>
            match seconds hms with
            | Ok n => (DInt n, None)
            | Raise e => (DStr hms, Some e)
            end
        end
    | None => (d, None)
    end
  else (d, None).

(** The statements from [time_match = ...] on: the text to print, if any. *)
Definition scan_time (progress_msg line : string) (d : duration_value)
    : result (option string) :=
  match Re.search "time=" line with
  | Some g =>
      hms <- Py.getitem (Py.split "." g) 0 ;;
      current_time <- seconds hms ;;
      progress_percentage <- percentage current_time d ;;
      Ok (Some (progress_msg ++ " " ++ Py.str progress_percentage ++ "%"))
  | None => Ok None
  end.

Section Runner.

(** [buffer.decode("utf-8", errors="ignore")]. *)
Variable decode : list byte -> string.

(** [Popen(convert_cmd, stderr=PIPE)], run to its end. *)
Variable ffmpeg : list string -> child.

(** The [try] block, entered when the chunk read is a carriage return;
    [except: pass] keeps what was assigned before the exception. *)
Definition on_line (progress_msg : string) (st : state) : state :=
  let line := Py.strip (decode (buffer st)) in
  let st1 :=
    {| duration := duration st; buffer := [];
       all_stderr := all_stderr st ++ line ++ NL; printed := printed st |} in
  match scan_duration line (duration st1) with
  | (d, Some _) => set_duration d st1
  | (d, None) =>
      let st2 := set_duration d st1 in
      match scan_time progress_msg line d with
      | Ok (Some text) => emit text st2
      | Ok None => st2
      | Raise _ => st2
      end
  end.

(** One turn of [while True] on a chunk of one byte. *)
Definition step (progress_msg : string) (st : state) (chunk : byte) : state :=
  let st' :=
    {| duration := duration st; buffer := (buffer st ++ [chunk])%list;
       all_stderr := all_stderr st; printed := printed st |} in
  if Byte.eqb chunk "013"%byte then on_line progress_msg st' else st'.

(** The loop, until the read returns no chunk. *)
Definition read_loop (progress_msg : string) (bytes : list byte) (st : state) : state :=
  fold_left (step progress_msg) bytes st.

Definition convert_cmd (source v_bitrate : string) (crop subtitle : option string)
    (resolution output : string) : list string :=
  let filters : list string := [] in
  let cmd :=
    ["ffmpeg"; "-i"; source; "-vcodec"; "mpeg4"; "-vtag"; "xvid";
     "-acodec"; "libmp3lame"; "-b:v"; v_bitrate; "-b:a"; AUDIO_BITRATE;
     "-s"; resolution] in
  let filters := if truthy crop then (filters ++ [text crop])%list else filters in
  let filters := if truthy subtitle then (filters ++ [text subtitle])%list else filters in
  let cmd :=
    match filters with
    | [] => cmd
    | _ => (cmd ++ ["-vf"; String.concat "," filters])%list
    end in
  (cmd ++ [output])%list.

Definition convert (source v_bitrate : string) (crop subtitle : option string)
    (resolution output progress_msg : string) (w : world) : world * result unit :=
  let process := ffmpeg (convert_cmd source v_bitrate crop subtitle resolution output) in
  let st := read_loop progress_msg (stderr process) initial in
  let w1 := if wrote_output process then create output w else w in
  let w2 :=
    {| files := files w1; listing := listing w1;
       stdout := (stdout w1 ++ printed st)%list |} in
  if negb (returncode process =? 0)
  then (print (progress_msg ++ " Failed" ++ NL) w2, Raise (Exception (all_stderr st)))
  else (w2, Ok tt).

(** ** The batch loop of [main] *)

Definition progress_label (count total : Z) (name : string) : string :=
  let count_padding := Py.len (Py.str total) in
  CR ++ " " ++ Py.rjust (Py.str count) count_padding " " ++ "/" ++ Py.str total
     ++ ": Converting " ++ name ++ "...".

(** The subtitle filter chosen in [main]. *)
Definition resolve_subtitle (c : choice) (each_source : source) (w : world)
    : world * result (option string) :=
  match c with
  | NoSubtitle => (w, Ok None)
  | External =>
      let ext_sub_cmd := has_external_subtitle w (video each_source) in
      (w, Ok (if truthy ext_sub_cmd then ext_sub_cmd else None))
  | Internal n =>
      match has_internal_subtitle (video each_source) (subtitles each_source) n w with
      | (w', Ok int_sub_cmd) => (w', Ok (if truthy int_sub_cmd then int_sub_cmd else None))
      | (w', Raise e) => (w', Raise e)
      end
  end.

(** The [for] loop of [main] from the source it has reached, with [count] as
    it stands and [total = len(source_list)]: [continue] goes to the next
    source without passing [count += 1], an exception ends the loop. *)
Fixpoint batch (opts : options) (output_dir : string) (total count : Z)
    (rest : list source) (w : world) : world * result unit :=
  match rest with
  | [] => (w, Ok tt)
  | each_source :: rest' =>
      let progress_msg := progress_label count total (video each_source) in
      let w := print progress_msg w in
      let output :=
        Py.join output_dir (fst (Py.splitext (video each_source)) ++ ".avi") in
      if exists_ w output && negb (overwrite_output opts) then
        batch opts output_dir total count rest'
          (print (progress_msg ++ " Skipped, file already existed!" ++ NL) w)
      else
        let w := if exists_ w output then remove output w else w in
        let (crop, resolution) := plan (should_crop opts) each_source in
        match resolve_subtitle (subtitle_choice opts) each_source w with
        | (w, Raise e) => (w, Raise e)
        | (w, Ok subtitle) =>
            match convert (video each_source) (v_bitrate opts) crop subtitle
                    resolution output progress_msg w with
            | (w, Raise e) => (w, Raise e)
            | (w, Ok _) =>
                batch opts output_dir total (count + 1) rest'
                  (print (progress_msg ++ " Completed" ++ NL) w)
            end
        end
  end.

(** [main] after the prompts. *)
Definition main (opts : options) (output_dir : string) (source_list : list source)
    (w : world) : world * result unit :=
  batch opts output_dir (Z.of_nat (List.length source_list)) 1 source_list w.

End Runner.

(** ** Definitions used to state the properties *)

(** The diagnostic stream as the specification describes it: cut after each
    carriage return.  [cr_lines cur bytes] gives the complete lines, each
    with its carriage return, and the bytes left after the last one; [cur]
    is the line begun so far. *)
Fixpoint cr_lines (cur bytes : list byte) : list (list byte) * list byte :=
  match bytes with
  | [] => ([], cur)
  | b :: r =>
      if Byte.eqb b "013"%byte
      then let (ls, rest) := cr_lines [] r in ((cur ++ [b])%list :: ls, rest)
      else cr_lines (cur ++ [b])%list r
  end.

(** The text of one complete line: decoded, stripped, ended by a newline. *)
Definition diagnostic_line (decode : list byte -> string) (l : list byte) : string :=
  Py.strip (decode l) ++ NL.

(** The diagnostic text of a stream: its complete lines, one per line. *)
Definition diagnostics (decode : list byte -> string) (bytes : list byte) : string :=
  fold_right String.append "" (map (diagnostic_line decode) (fst (cr_lines [] bytes))).

(** A complete line: bytes other than a carriage return, then one. *)
Definition complete_line (l : list byte) : Prop :=
  exists body, l = (body ++ ["013"%byte])%list /\ ~ In "013"%byte body.


(** A run of decimal digits that is not empty. *)
Fixpoint all_digits (s : string) : bool :=
  match s with
  | "" => true
  | String c r => Py.is_digit c && all_digits r
  end.

Definition digit_run (s : string) : Prop :=
  s <> "" /\ all_digits s = true.

(** The number a run of digits denotes, read from the left. *)
Definition digits_value (s : string) : Z :=
  fold_left (fun acc c => 10 * acc + (Z.of_N (N_of_ascii c) - 48))
    (list_ascii_of_string s) 0.

(** [p] holds of every integer from [lo] on, [n] of them. *)
Fixpoint all_from (p : Z -> bool) (lo : Z) (n : nat) : bool :=
  match n with
  | O => true
  | S n' => p lo && all_from p (lo + 1) n'
  end.

(** What [calculate_cropping] should compute from a height: the check that
    the double arithmetic gives the integer quotient [4 * h / 3]. *)
Definition width_exact (h : Z) : bool :=
  match Py.truediv h 3 with
  | Ok third =>
      match Py.int_of_float (third * 4)%float with
      | Ok n => n =? 4 * h / 3
      | Raise _ => false
      end
  | Raise _ => false
  end.

(** The check that halving in doubles truncates toward zero. *)
Definition half_exact (d : Z) : bool :=
  match Py.truediv d 2 with
  | Ok half =>
      match Py.int_of_float half with
      | Ok n => n =? Z.quot d 2
      | Raise _ => false
      end
  | Raise _ => false
  end.

(** The two ways of [Py.truediv] compared on one pair of operands. *)
Definition rounding_agrees (a b : Z) : bool :=
  let x := SF2Prim (Py.round_quotient (Z.abs a) (Z.abs b)) in
  PrimFloat.eqb
    (Py.float_of_small a / Py.float_of_small b)%float
    (if xorb (a <? 0) (b <? 0) then (- x)%float else x).

(** The largest frame dimension the geometry properties are stated for; no
    video codec in use has frames wider or taller. *)
Definition MAX_DIMENSION : Z := 65536.

(** A decoder for streams of ASCII bytes, on which it is UTF-8 decoding;
    used where a property is shown on a concrete stream. *)
Definition decode_ascii (bytes : list byte) : string :=
  string_of_list_byte bytes.

(** The text of a timestamp made of four runs of digits. *)
Definition timestamp (h m s f : string) : string :=
  h ++ ":" ++ m ++ ":" ++ s ++ "." ++ f.

(** The conversion [convert] applies to group 1 of a match. *)
Definition timestamp_seconds (g : string) : result Z :=
  hms <- Py.getitem (Py.split "." g) 0 ;;
  seconds hms.

(** One scanned line as the [try] block treats it: the duration and the
    printed texts before, and after. *)
Definition line_step (msg : string) (acc : duration_value * list string)
    (line : string) : duration_value * list string :=
  match scan_duration line (fst acc) with
  | (d, Some _) => (d, snd acc)
  | (d, None) =>
      match scan_time msg line d with
      | Ok (Some text) => (d, (snd acc ++ [text])%list)
      | _ => (d, snd acc)
      end
  end.


(** The scenario the examples run: three sources, bitrate 3000, no crop, no
    subtitles, no overwriting, the output of the second source already
    there; a transcoder that writes its output, with a given diagnostic
    stream and exit code. *)
Definition sample_source (name : string) : source :=
  {| video := name; ratio := 0.5625; crop_cmd := "crop=1440:1080:240:0";
     subtitles := [] |}.

Definition sample_sources : list source :=
  [sample_source "a.mkv"; sample_source "b.mkv"; sample_source "c.mkv"].

Definition sample_options : options :=
  {| v_bitrate := "3000k"; should_crop := false; subtitle_choice := NoSubtitle;
     overwrite_output := false |}.

Definition sample_world : world :=
  {| files := ["out/b.avi"]; listing := ["a.mkv"; "b.mkv"; "c.mkv"]; stdout := [] |}.

Definition sample_stream : list byte :=
  list_byte_of_string
    ("  Duration: 00:01:40.00, start: 0.000000" ++ CR
     ++ "frame=  700 time=00:00:29.50 bitrate=3000.1kbits/s" ++ CR
     ++ "Conversion failed!").

Definition sample_ffmpeg (bytes : list byte) (code : Z) : list string -> child :=
  fun _ => {| stderr := bytes; returncode := code; wrote_output := true |}.

(** ** The prompts: [_prompt_input], [_prompt_yes_no], [_prompt_choice],
    [get_options], [get_output_dir] and the loop of [get_sources] *)

(** What the prompts use of the Python library besides [Py]. *)
Module Builtins.

(** The blanks [int()] passes over at both ends of a string: the ASCII
    ones, and of the others below U+0100 the two Unicode spaces. *)
Definition is_int_space (c : ascii) : bool :=
  let n := Z.of_N (N_of_ascii c) in
  ((9 <=? n) && (n <=? 13)) || (n =? 32) || (n =? 133) || (n =? 160).

Fixpoint lstrip_by (p : ascii -> bool) (s : string) : string :=
  match s with
  | "" => ""
  | String c r => if p c then lstrip_by p r else s
  end.

Fixpoint rstrip_by (p : ascii -> bool) (s : string) : string :=
  match s with
  | "" => ""
  | String c r =>
      match rstrip_by p r with
      | "" => if p c then "" else String c ""
      | r' => String c r'
      end
  end.

(** Digits in groups parted by single underscores; [after_digit] tells
    whether the character before was a digit. *)
Fixpoint grouped_digits (after_digit : bool) (acc : Z) (s : string) : option Z :=
  match s with
  | "" => if after_digit then Some acc else None
  | String c r =>
      match Py.digit_value c with
      | Some d => grouped_digits true (10 * acc + d) r
      | None =>
          if Ascii.eqb c "_" && after_digit then grouped_digits false acc r
          else None
      end
  end.

(** The sign in front, if there is one, and what follows it. *)
Definition split_sign (t : string) : bool * string :=
  match t with
  | "" => (false, t)
  | String c r =>
      if Ascii.eqb c "-" then (true, r)
      else if Ascii.eqb c "+" then (false, r)
      else (false, t)
  end.

(** [int(s)] for any string: blanks at both ends, a sign, then digits in
    groups.  The bound the interpreter can put on the number of digits is
    left out. *)
Definition int (s : string) : result Z :=
  let t := rstrip_by is_int_space (lstrip_by is_int_space s) in
  let (negative, body) := split_sign t in
  match grouped_digits false 0 body with
  | Some n => Ok (if negative then - n else n)
  | None => Raise ValueError
  end.

(** The characters [str.isdigit] takes below U+0100: the ten digits and the
    superscripts one, two and three. *)
Definition is_digit_char (c : ascii) : bool :=
  let n := Z.of_N (N_of_ascii c) in
  ((48 <=? n) && (n <=? 57)) || (n =? 178) || (n =? 179) || (n =? 185).

Fixpoint all_digit_chars (s : string) : bool :=
  match s with
  | "" => true
  | String c r => is_digit_char c && all_digit_chars r
  end.

(** [s.isdigit()]. *)
Definition isdigit (s : string) : bool :=
  match s with
  | "" => false
  | _ => all_digit_chars s
  end.

End Builtins.

(** The end of a call that reads the keyboard: it returns, or [input()]
    finds the input at its end and raises [EOFError], or another exception
    leaves it.  Each carries the lines not yet read, what has been shown on
    the console, oldest first, and the state the call works on. *)
Inductive outcome (S A : Type) : Type :=
| Return (a : A) (lines : list string) (shown : list string) (env : S)
| EndOfInput (shown : list string) (env : S)
| Uncaught (e : exn) (lines : list string) (shown : list string) (env : S).

Arguments Return {S A} a lines shown env.
Arguments EndOfInput {S A} shown env.
Arguments Uncaught {S A} e lines shown env.

Definition and_then {S A B : Type} (c : outcome S A)
    (k : A -> list string -> list string -> S -> outcome S B) : outcome S B :=
  match c with
  | Return a lines shown env => k a lines shown env
  | EndOfInput shown env => EndOfInput shown env
  | Uncaught e lines shown env => Uncaught e lines shown env
  end.

(** What [validate_func] does with an input: a true value, a false one, or
    an exception whose text is [message]. *)
Inductive verdict : Type :=
| Accept
| Reject
| Fail (message : string).

Definition INVALID : string := "# Invalid input!" ++ NL.

(** One more text on the console. *)
Definition write (text : string) (shown : list string) : list string :=
  (shown ++ [text])%list.

Section Prompts.

(** The state a validation reads and changes (the file system for the
    output directory, nothing for the options). *)
Variable S : Type.

(** [str(e)] for the [ValueError] that [int(x)] raises: the wording is the
    interpreter's. *)
Variable int_error : string -> string.

Fixpoint _prompt_input (prompt : string)
    (validate_func : string -> S -> verdict * S)
    (lines shown : list string) (env : S) : outcome S string :=
  let shown := write ("# " ++ prompt ++ NL) shown in
  match lines with
  | [] => EndOfInput shown env
  | line :: lines' =>
      let user_input := Py.strip line in
      match validate_func user_input env with
      | (Accept, env') => Return user_input lines' shown env'
      | (Reject, env') =>
          _prompt_input prompt validate_func lines'
            (write ("# " ++ "Invalid input: " ++ user_input ++ NL) shown) env'
      | (Fail message, env') =>
          _prompt_input prompt validate_func lines'
            (write ("# " ++ message ++ NL) shown) env'
      end
  end.

Fixpoint yes_no_loop (prompt : string) (result : bool)
    (lines shown : list string) (env : S) : outcome S bool :=
  let shown := write ("# " ++ prompt ++ NL) shown in
  match lines with
  | [] => EndOfInput shown env
  | user_input :: lines' =>
      if String.eqb user_input "" then Return result lines' shown env
      else if String.eqb (Py.lower (Py.strip user_input)) "y"
      then Return true lines' shown env
      else if String.eqb (Py.lower (Py.strip user_input)) "n"
      then Return false lines' shown env
      else yes_no_loop prompt result lines' (write INVALID shown) env
  end.

Definition _prompt_yes_no (prompt : string) (default : bool)
    (lines shown : list string) (env : S) : outcome S bool :=
  let result := default in
  let prompt := prompt ++ (if default then " (Y/n)" else " (y/N)") in
  yes_no_loop prompt result lines shown env.

(** [options_text]: one line for each option, numbered from 1. *)
Fixpoint options_text (i : Z) (options : list string) : string :=
  match options with
  | [] => ""
  | option :: rest =>
      NL ++ "  " ++ Py.str (i + 1) ++ ". " ++ option ++ options_text (i + 1) rest
  end.

Fixpoint _prompt_choice (prompt : string) (options : list string)
    (lines shown : list string) (env : S) : outcome S string :=
  let shown := write ("# " ++ prompt ++ options_text 0 options ++ " " ++ NL) shown in
  match lines with
  | [] => EndOfInput shown env
  | user_input :: lines' =>
      match (chosen_index <- Builtins.int (Py.strip user_input) ;;
             Py.getitem options (chosen_index - 1)) with
      | Ok option => Return option lines' shown env
      | Raise _ => _prompt_choice prompt options lines' (write INVALID shown) env
      end
  end.

(** [validate_vbitrate]. *)
Definition validate_vbitrate (x : string) (env : S) : verdict * S :=
  match Builtins.int x with
  | Ok n => (if (1000 <=? n) && (n <=? 9000) then Accept else Reject, env)
  | Raise _ => (Fail (int_error x), env)
  end.

(** [lambda x: x.isdigit()]. *)
Definition validate_track (x : string) (env : S) : verdict * S :=
  (if Builtins.isdigit x then Accept else Reject, env).

(** The branch of [get_options] that asks which subtitles to burn. *)
Definition ask_subtitle (lines shown : list string) (env : S) : outcome S choice :=
  and_then
    (_prompt_choice "Burn internal or external subtitles?" ["Internal"; "External"]
       lines shown env)
    (fun chosen lines shown env =>
       if String.eqb chosen "External" then Return External lines shown env
       else
         and_then
           (_prompt_input
              "Enter the number of subtitle track, the first track will be 0:"
              validate_track lines shown env)
           (fun x lines shown env =>
              match Builtins.int x with
              | Ok n => Return (Internal n) lines shown env
              | Raise e => Uncaught e lines shown env
              end)).

Definition get_options (lines shown : list string) (env : S) : outcome S options :=
  and_then
    (_prompt_input "Set the video bitrate, numbers only: (1000-9000 kbps)"
       validate_vbitrate lines shown env)
    (fun v_bitrate lines shown env =>
  let v_bitrate := v_bitrate ++ "k" in
  and_then (_prompt_yes_no "Crop the widescreen video to 4:3?" false lines shown env)
    (fun should_crop lines shown env =>
  and_then (_prompt_yes_no "Burn the text subtitles to the video?" true lines shown env)
    (fun should_burn_subtitle lines shown env =>
  and_then
    (if should_burn_subtitle then ask_subtitle lines shown env
     else Return NoSubtitle lines shown env)
    (fun subtitle_choice lines shown env =>
  and_then
    (_prompt_yes_no "Overwrite existing files in the output directory?" false
       lines shown env)
    (fun overwrite_output lines shown env =>
  Return {| v_bitrate := v_bitrate; should_crop := should_crop;
            subtitle_choice := subtitle_choice;
            overwrite_output := overwrite_output |} lines shown env))))).

End Prompts.

(** *** [get_options] of [ps2_sms_converter.py] *)

Section Ps2Prompts.

Variable S : Type.
Variable int_error : string -> string.

Definition PS2_INVALID : string := "Invalid input!" ++ NL.

(** The loops for the crop and for the overwriting, alike but for the
    question: [y] is yes, an empty or blank line and [n] are no. *)
Fixpoint ps2_yes_or_no (question : string) (lines shown : list string) (env : S)
    : outcome S bool :=
  let shown := write question shown in
  match lines with
  | [] => EndOfInput shown env
  | user_input :: lines' =>
      let answer := Py.lower (Py.strip user_input) in
      if String.eqb answer "y" then Return true lines' shown env
      else if Py.str_in answer [""; "n"] then Return false lines' shown env
      else ps2_yes_or_no question lines' (write PS2_INVALID shown) env
  end.

(** The innermost loop: any text [int()] reads is a track number. *)
Fixpoint ps2_track (lines shown : list string) (env : S) : outcome S Z :=
  let shown :=
    write ("Enter the number of subtitle track, the first track will be 0:" ++ NL)
      shown in
  match lines with
  | [] => EndOfInput shown env
  | user_input :: lines' =>
      match Builtins.int (Py.strip user_input) with
      | Ok n => Return n lines' shown env
      | Raise _ =>
          ps2_track lines'
            (write PS2_INVALID
               (write (int_error (Py.strip user_input) ++ NL) shown)) env
      end
  end.

(** The loop that asks for internal or external subtitles. *)
Fixpoint ps2_internal_or_external (lines shown : list string) (env : S)
    : outcome S choice :=
  let shown :=
    write ("Burn internal or external subtitles? " ++ NL ++ "  1. Internal" ++ NL
           ++ "  2. External" ++ NL) shown in
  match lines with
  | [] => EndOfInput shown env
  | user_input :: lines' =>
      if String.eqb (Py.strip user_input) "2" then Return External lines' shown env
      else if String.eqb (Py.strip user_input) "1" then
        and_then (ps2_track lines' shown env)
          (fun n lines shown env => Return (Internal n) lines shown env)
      else ps2_internal_or_external lines' (write PS2_INVALID shown) env
  end.

(** The loop that asks whether to burn subtitles. *)
Fixpoint ps2_subtitle (lines shown : list string) (env : S) : outcome S choice :=
  let shown := write ("Burn the text subtitles to the video? (Y/n)" ++ NL) shown in
  match lines with
  | [] => EndOfInput shown env
  | user_input :: lines' =>
      let answer := Py.lower (Py.strip user_input) in
      if Py.str_in answer [""; "y"] then ps2_internal_or_external lines' shown env
      else if String.eqb answer "n" then Return NoSubtitle lines' shown env
      else ps2_subtitle lines' (write PS2_INVALID shown) env
  end.

(** [get_options] of the older script: no bitrate is asked for. *)
Definition ps2_get_options (lines shown : list string) (env : S)
    : outcome S (bool * choice * bool) :=
  and_then
    (ps2_yes_or_no ("Crop the widescreen video to 4:3? (y/N)" ++ NL) lines shown env)
    (fun should_crop lines shown env =>
  and_then (ps2_subtitle lines shown env)
    (fun subtitle_choice lines shown env =>
  and_then
    (ps2_yes_or_no ("Overwrite existing files in the output directory? (y/N)" ++ NL)
       lines shown env)
    (fun overwrite_output lines shown env =>
  Return (should_crop, subtitle_choice, overwrite_output) lines shown env))).

End Ps2Prompts.

(** *** [get_output_dir] and the loop of [get_sources] *)

Section Directories.

(** The file system, as the calls below see and change it.  A call the
    program has no handler for is taken to return. *)
Variable S : Type.

(** [Path(p).is_dir()]. *)
Variable is_dir : S -> string -> bool.

(** [Path(p).mkdir(parents=False, exist_ok=True)]: the file system with the
    directory made, or [None] when the call raises. *)
Variable mkdir : S -> string -> option S.

Definition validate_output_path (output_path : string) (fs : S) : verdict * S :=
  if is_dir fs output_path then (Accept, fs)
  else
    match mkdir fs output_path with
    | Some fs' => (Accept, fs')
    | None => (Fail "Path doesn't exist, try again!", fs)
    end.

Definition get_output_dir (lines shown : list string) (fs : S) : outcome S string :=
  _prompt_input S "Enter the path of the output directory:" validate_output_path
    lines shown fs.

(** [os.path.exists], [os.path.isdir], [os.listdir],
    [Path(p).parent.absolute()], [os.chdir] and [probe_source]. *)
Variable path_exists : S -> string -> bool.
Variable isdir : S -> string -> bool.
Variable listdir : S -> string -> list string.
Variable parent_absolute : S -> string -> string.
Variable chdir : string -> S -> S.
Variable probe_source : S -> string -> resolution * list stream.

Fixpoint get_sources (lines shown : list string) (fs : S)
    : outcome S (string * list source) :=
  let shown :=
    write ("# Enter the path of the source video file or directory:" ++ NL) shown in
  match lines with
  | [] => EndOfInput shown fs
  | base_dir :: lines' =>
      if negb (path_exists fs base_dir) then
        get_sources lines' (write ("# Path doesn't exist, try again." ++ NL) shown) fs
      else
        let shown := write (CR ++ "# Scanning...") shown in
        let (files_list, base_dir) :=
          if isdir fs base_dir then (listdir fs base_dir, base_dir)
          else ([base_dir], parent_absolute fs base_dir) in
        let fs := chdir base_dir fs in
        match scan (probe_source fs) files_list with
        | Raise e => Uncaught e lines' shown fs
        | Ok source_list =>
            let shown := write (CR ++ "# Scanning... Done" ++ NL) shown in
            match source_list with
            | [] =>
                get_sources lines'
                  (write ("# No video found in the given path." ++ NL) shown) fs
            | _ => Return (base_dir, source_list) lines' shown fs
            end
        end
  end.

End Directories.

(** *** Definitions used to state the further properties *)

(** The files [get_sources] takes for videos. *)
Definition is_video (each_file : string) : bool :=
  Py.str_in (Py.lower (snd (Py.splitext each_file))) VIDEO_EXTS.

(** The output path [main] computes for a source. *)
Definition output_path (output_dir : string) (each_source : source) : string :=
  Py.join output_dir (fst (Py.splitext (video each_source)) ++ ".avi").

(** What [_prompt_yes_no] makes of one line: an answer, or none. *)
Definition yes_no_answer (default : bool) (line : string) : option bool :=
  if String.eqb line "" then Some default
  else if String.eqb (Py.lower (Py.strip line)) "y" then Some true
  else if String.eqb (Py.lower (Py.strip line)) "n" then Some false
  else None.

(** A validation that leaves the state alone. *)
Definition pure_validation {S : Type} (v : string -> verdict)
    (x : string) (env : S) : verdict * S :=
  (v x, env).

(** The line a prompt shows before it reads. *)
Definition question (prompt : string) : string := "# " ++ prompt ++ NL.

(** What [_prompt_input] shows for a line it does not take. *)
Definition complaint (v : string -> verdict) (line : string) : string :=
  match v (Py.strip line) with
  | Fail message => "# " ++ message ++ NL
  | _ => "# " ++ "Invalid input: " ++ Py.strip line ++ NL
  end.

(** The digits of [s] read from the left onto [acc]. *)
Definition fold_digits (acc : Z) (s : string) : Z :=
  fold_left (fun a c => 10 * a + (Z.of_N (N_of_ascii c) - 48))
    (list_ascii_of_string s) acc.

(** A sample file system for the directory prompts: the directories that
    exist; a directory can be made when its name has no separator. *)
Definition sample_is_dir (fs : list string) (p : string) : bool :=
  existsb (String.eqb p) fs.

Definition sample_mkdir (fs : list string) (p : string) : option (list string) :=
  if Py.has_char "/" p then None else Some (p :: fs).

(** A sample of the calls of [get_sources]: one directory, [movies], with
    two videos and a text file in it. *)
Definition sample_exists (fs : list string) (p : string) : bool :=
  String.eqb p "movies".

Definition sample_listdir (fs : list string) (p : string) : list string :=
  ["a.mkv"; "notes.txt"; "b.MP4"].

Definition sample_probe (fs : list string) (each_file : string)
    : resolution * list stream :=
  ({| width := 1920; height := 1080 |}, []).

(** The frames the geometry is checked on. *)
Definition in_range (res : resolution) : Prop :=
  0 < width res <= MAX_DIMENSION /\ 0 < height res <= MAX_DIMENSION.

(** What a batch shows for sources it skips, the count standing. *)
Definition skipped_lines (total count : Z) (l : list source) : list string :=
  flat_map
    (fun s =>
       [progress_label count total (video s);
        progress_label count total (video s)
        ++ " Skipped, file already existed!" ++ NL]) l.


(** * Properties *)

(** ** Planning *)

Lemma resolutions_differ : RESOLUTION_4BY3 <> RESOLUTION_16BY9.
Proof. discriminate. Qed.

Lemma plan_closed_form (crop_flag : bool) (s : source) :
  plan crop_flag s =
  (if crop_flag && (ratio s <? 0.65)%float then Some (crop_cmd s) else None,
   if (crop_flag && (ratio s <? 0.65)%float) || (0.7 <=? ratio s)%float
   then RESOLUTION_4BY3 else RESOLUTION_16BY9).
Proof.
  unfold plan.
  destruct (crop_flag && (ratio s <? 0.65)%float);
    destruct (0.7 <=? ratio s)%float; reflexivity.
Qed.

(** C1: the crop is applied exactly when the crop flag is set and the ratio
    is strictly below 0.65; the target resolution is the 4:3 preset exactly
    when that holds or the ratio is at least 0.7, and the 16:9 preset
    otherwise.  A ratio of exactly 0.65 (a 20 by 13 frame) is not cropped, a
    ratio of 0.649999 is when cropping is asked for, and a ratio of exactly
    0.7 (a 10 by 7 frame) gives 4:3. *)
Theorem plan_thresholds (crop_flag : bool) (s : source) :
  let r := ratio s in
  (fst (plan crop_flag s) = Some (crop_cmd s)
   <-> crop_flag = true /\ (r <? 0.65)%float = true)
  /\ (fst (plan crop_flag s) = None
      <-> ~ (crop_flag = true /\ (r <? 0.65)%float = true))
  /\ (snd (plan crop_flag s) = RESOLUTION_4BY3
      <-> (crop_flag = true /\ (r <? 0.65)%float = true)
          \/ (0.7 <=? r)%float = true)
  /\ (snd (plan crop_flag s) = RESOLUTION_16BY9
      <-> ~ ((crop_flag = true /\ (r <? 0.65)%float = true)
             \/ (0.7 <=? r)%float = true))
  /\ (forall v c subs,
        plan true {| video := v; ratio := 0.65; crop_cmd := c; subtitles := subs |}
        = (None, RESOLUTION_16BY9))
  /\ (forall v c subs,
        plan true {| video := v; ratio := 0.649999; crop_cmd := c; subtitles := subs |}
        = (Some c, RESOLUTION_4BY3))
  /\ (forall v c subs,
        plan false {| video := v; ratio := 0.7; crop_cmd := c; subtitles := subs |}
        = (None, RESOLUTION_4BY3))
  /\ Py.truediv 13 20 = Ok 0.65%float
  /\ Py.truediv 7 10 = Ok 0.7%float.
Proof.
  intro r. subst r.
  rewrite plan_closed_form. cbn [fst snd].
  pose proof resolutions_differ as Hd.
  repeat match goal with |- _ /\ _ => split end;
    try reflexivity; try (intros; reflexivity);
    destruct crop_flag; destruct (ratio s <? 0.65)%float;
    destruct (0.7 <=? ratio s)%float; cbn [andb orb];
    split; intros; try reflexivity; try discriminate;
    try tauto; try congruence;
    try intuition (discriminate || congruence).
Qed.

(** A plan with a crop has the 4:3 preset. *)
Theorem crop_implies_4by3 (crop_flag : bool) (s : source) :
  fst (plan crop_flag s) = None \/ snd (plan crop_flag s) = RESOLUTION_4BY3.
Proof.
  rewrite plan_closed_form. cbn [fst snd].
  destruct (crop_flag && (ratio s <? 0.65)%float); cbn [orb]; auto.
Qed.

(** With a crop and a subtitle directive the transcoder gets one [-vf]
    argument, the crop first, then a comma, then the subtitle directive, and
    the output path last. *)
Theorem filter_chain_order (source v_bitrate resolution output : string)
    (a b : ascii) (c s : string) :
  convert_cmd source v_bitrate (Some (String a c)) (Some (String b s))
    resolution output
  = ["ffmpeg"; "-i"; source; "-vcodec"; "mpeg4"; "-vtag"; "xvid";
     "-acodec"; "libmp3lame"; "-b:v"; v_bitrate; "-b:a"; "192k";
     "-s"; resolution; "-vf"; String a c ++ "," ++ String b s; output].
Proof. reflexivity. Qed.

(** ** Subtitle tracks inside the source *)

Lemma getitem_spec {A : Type} (l : list A) (i : Z) :
  let n := Z.of_nat (List.length l) in
  if (- n <=? i) && (i <? n)
  then exists a, Py.getitem l i = Ok a
  else Py.getitem l i = Raise IndexError.
Proof.
  intro n. unfold Py.getitem. fold n.
  destruct (- n <=? i) eqn:Hlo; destruct (i <? n) eqn:Hhi; cbn [andb];
    destruct (i <? 0) eqn:Hneg;
    rewrite ?Z.leb_le, ?Z.leb_gt, ?Z.ltb_lt, ?Z.ltb_ge in *.
  - (* a position counted from the back *)
    assert (Hj : (i + n <? 0) || (n <=? i + n) = false).
    { apply orb_false_iff; split; [apply Z.ltb_ge | apply Z.leb_gt]; lia. }
    rewrite Hj.
    destruct (nth_error l (Z.to_nat (i + n))) eqn:Hn; [eauto |].
    apply nth_error_None in Hn. subst n. lia.
  - (* a position counted from the front *)
    assert (Hj : (i <? 0) || (n <=? i) = false).
    { apply orb_false_iff; split; [apply Z.ltb_ge | apply Z.leb_gt]; lia. }
    rewrite Hj.
    destruct (nth_error l (Z.to_nat i)) eqn:Hn; [eauto |].
    apply nth_error_None in Hn. subst n. lia.
  - assert (Hj : (i + n <? 0) || (n <=? i + n) = true).
    { apply orb_true_iff; right; apply Z.leb_le; lia. }
    now rewrite Hj.
  - assert (Hj : (i <? 0) || (n <=? i) = true).
    { apply orb_true_iff; right; apply Z.leb_le; lia. }
    now rewrite Hj.
  - assert (Hj : (i + n <? 0) || (n <=? i + n) = true).
    { apply orb_true_iff; left; apply Z.ltb_lt; lia. }
    now rewrite Hj.
  - subst n. lia.
  - assert (Hj : (i + n <? 0) || (n <=? i + n) = true).
    { apply orb_true_iff; left; apply Z.ltb_lt; lia. }
    now rewrite Hj.
  - assert (Hj : (i <? 0) || (n <=? i) = true).
    { apply orb_true_iff; right; apply Z.leb_le; lia. }
    now rewrite Hj.
Qed.

Lemma has_internal_subtitle_spec (source : string) (subtitle_streams : list stream)
    (i : Z) (w : world) :
  let n := Z.of_nat (List.length subtitle_streams) in
  has_internal_subtitle source subtitle_streams i w =
  if (- n <=? i) && (i <? n)
  then (w, Ok (Some ("subtitles=" ++ source ++ ":si=" ++ Py.str i)))
  else (print (not_found_message i) w, Ok None).
Proof.
  intro n. unfold has_internal_subtitle.
  pose proof (getitem_spec subtitle_streams i) as H. cbv zeta in H. fold n in H.
  destruct ((- n <=? i) && (i <? n)).
  - destruct H as [a ->]. reflexivity.
  - rewrite H. reflexivity.
Qed.



(** ** Subtitle files beside the source *)

Lemma prefix_spec (p s : string) :
  String.prefix p s = true <-> exists post, s = p ++ post.
Proof.
  revert s. induction p as [| c p IH]; intro s.
  - split; [intros _; exists s; reflexivity | intros _; destruct s; reflexivity].
  - destruct s as [| d s]; cbn [String.prefix].
    + split; [discriminate | intros [post H]; discriminate].
    + destruct (ascii_dec c d) as [-> | Hne].
      * rewrite IH. split; intros [post H]; exists post.
        -- cbn. now rewrite H.
        -- cbn in H. now injection H.
      * split; [discriminate |].
        intros [post H]. cbn in H. injection H as H1 _. congruence.
Qed.

Lemma contains_unfold (needle hay : string) :
  Py.contains needle hay =
  String.prefix needle hay ||
  match hay with
  | "" => false
  | String _ r => Py.contains needle r
  end.
Proof. destruct hay; reflexivity. Qed.

(** [needle in hay] holds exactly when [hay] has [needle] as a substring. *)
Lemma contains_spec (needle hay : string) :
  Py.contains needle hay = true <-> exists pre post, hay = pre ++ needle ++ post.
Proof.
  split.
  - induction hay as [| c r IH]; rewrite contains_unfold; intro H;
      apply orb_true_iff in H; destruct H as [H | H].
    + apply prefix_spec in H. destruct H as [post H]. now exists "", post.
    + discriminate.
    + apply prefix_spec in H. destruct H as [post H]. now exists "", post.
    + destruct (IH H) as (pre & post & ->). now exists (String c pre), post.
  - intros (pre & post & ->). induction pre as [| c pre IH].
    + rewrite contains_unfold. apply orb_true_iff. left.
      apply prefix_spec. now exists post.
    + rewrite contains_unfold. apply orb_true_iff. right. exact IH.
Qed.

Lemma subtitle_match_spec (source f : string) :
  subtitle_match SUBTITLE_EXTS source f = true <->
  (let ext := Py.lower (snd (Py.splitext f)) in
   ext = ".ass" \/ ext = ".ssa" \/ ext = ".srt")
  /\ exists a b, fst (Py.splitext f) = a ++ fst (Py.splitext source) ++ b.
Proof.
  unfold subtitle_match. destruct (Py.splitext f) as [each_name each_ext].
  cbn [fst snd]. rewrite andb_true_iff, contains_spec.
  unfold Py.str_in, SUBTITLE_EXTS. cbn [existsb].
  rewrite !orb_true_iff, !String.eqb_eq. intuition discriminate.
Qed.

Lemma external_subtitle_some (exts files : list string) (source d : string) :
  external_subtitle exts files source = Some d <->
  exists pre f post,
    files = (pre ++ f :: post)%list
    /\ Forall (fun g => subtitle_match exts source g = false) pre
    /\ subtitle_match exts source f = true
    /\ d = "subtitles=" ++ Py.basename f.
Proof.
  induction files as [| g rest IH]; cbn [external_subtitle].
  - split; [discriminate |].
    intros (pre & f & post & H & _). destruct pre; discriminate.
  - destruct (subtitle_match exts source g) eqn:Hg.
    + split.
      * intro H. injection H as <-. exists [], g, rest. auto.
      * intros (pre & f & post & H & Hpre & Hf & ->).
        destruct pre as [| g' pre]; cbn in H; injection H as -> ->.
        -- reflexivity.
        -- inversion Hpre; congruence.
    + rewrite IH. split.
      * intros (pre & f & post & -> & Hpre & Hf & ->).
        exists (g :: pre), f, post. auto.
      * intros (pre & f & post & H & Hpre & Hf & ->).
        destruct pre as [| g' pre]; cbn in H; injection H as -> ->.
        -- congruence.
        -- inversion Hpre; subst. exists pre, f, post. auto.
Qed.

Lemma external_subtitle_none (exts files : list string) (source : string) :
  external_subtitle exts files source = None <->
  Forall (fun g => subtitle_match exts source g = false) files.
Proof.
  induction files as [| g rest IH]; cbn [external_subtitle].
  - split; auto.
  - destruct (subtitle_match exts source g) eqn:Hg.
    + split; [discriminate | intro H; inversion H; congruence].
    + rewrite IH. split; [auto | intro H; now inversion H].
Qed.

(** The extension is compared without regard to case, and the older script
    does not know [.ssa]. *)
Lemma subtitle_extension_examples :
  subtitle_match SUBTITLE_EXTS "movie.mkv" "movie.en.SRT" = true
  /\ subtitle_match SUBTITLE_EXTS "movie.mkv" "My movie.Ssa" = true
  /\ subtitle_match SUBTITLE_EXTS "movie.mkv" "movie.txt" = false
  /\ subtitle_match SUBTITLE_EXTS "movie.mkv" "other.srt" = false
  /\ external_subtitle SUBTITLE_EXTS ["movie.ssa"] "movie.mkv" = Some "subtitles=movie.ssa"
  /\ external_subtitle Ps2.SUBTITLE_EXTS ["movie.ssa"] "movie.mkv" = None.
Proof. repeat split. Qed.

(** The search of [ps2_sms_converter.py], with its shorter tuple of
    extensions, passes over every [.ssa] file. *)
Theorem ps2_ignores_ssa (source f : string) :
  Py.lower (snd (Py.splitext f)) = ".ssa" ->
  subtitle_match Ps2.SUBTITLE_EXTS source f = false
  /\ (forall a b, fst (Py.splitext f) = a ++ fst (Py.splitext source) ++ b ->
      subtitle_match SUBTITLE_EXTS source f = true).
Proof.
  intro H. split.
  - unfold subtitle_match. destruct (Py.splitext f) as [each_name each_ext].
    cbn [snd] in H. now rewrite H.
  - intros a b Hs. apply subtitle_match_spec. split; [cbv zeta; auto |].
    now exists a, b.
Qed.

(** The theorem on a listing that holds [movie.ssa] only. *)
Lemma ps2_ignores_ssa_sample :
  subtitle_match Ps2.SUBTITLE_EXTS "movie.mkv" "movie.ssa" = false
  /\ external_subtitle Ps2.SUBTITLE_EXTS ["movie.ssa"] "movie.mkv" = None
  /\ external_subtitle SUBTITLE_EXTS ["movie.ssa"] "movie.mkv"
     = Some "subtitles=movie.ssa".
Proof.
  split; [| split; reflexivity].
  exact (proj1 (ps2_ignores_ssa "movie.mkv" "movie.ssa" eq_refl)).
Defined.

(** C9: [has_external_subtitle] returns the directive naming the first file
    of the listing whose extension, lowered, is [.ass], [.ssa] or [.srt] and
    whose stem has the stem of the source as a substring, and returns
    nothing exactly when no file of the listing is such a file. *)
Theorem external_subtitle_first_match (w : world) (source : string) :
  let matches := subtitle_match SUBTITLE_EXTS source in
  (forall d,
      has_external_subtitle w source = Some d <->
      exists pre f post,
        listing w = (pre ++ f :: post)%list
        /\ Forall (fun g => matches g = false) pre
        /\ matches f = true
        /\ d = "subtitles=" ++ Py.basename f)
  /\ (has_external_subtitle w source = None <->
      Forall (fun g => matches g = false) (listing w))
  /\ (forall f,
        matches f = true <->
        (let ext := Py.lower (snd (Py.splitext f)) in
         ext = ".ass" \/ ext = ".ssa" \/ ext = ".srt")
        /\ exists a b, fst (Py.splitext f) = a ++ fst (Py.splitext source) ++ b).
Proof.
  cbv zeta. unfold has_external_subtitle. split; [| split].
  - intro d. apply external_subtitle_some.
  - apply external_subtitle_none.
  - intro f. apply (subtitle_match_spec source f).
Qed.

(** ** The read loop and the diagnostic text *)

Lemma append_assoc (a b c : string) : (a ++ b) ++ c = a ++ (b ++ c).
Proof. induction a as [| x a IH]; cbn; [reflexivity | now rewrite IH]. Qed.

Lemma append_empty_r (a : string) : a ++ "" = a.
Proof. induction a as [| x a IH]; cbn; [reflexivity | now rewrite IH]. Qed.

Lemma cr_lines_partition (cur bytes : list byte) :
  ~ In "013"%byte cur ->
  (cur ++ bytes)%list
  = (List.concat (fst (cr_lines cur bytes)) ++ snd (cr_lines cur bytes))%list
  /\ Forall complete_line (fst (cr_lines cur bytes))
  /\ ~ In "013"%byte (snd (cr_lines cur bytes)).
Proof.
  revert cur. induction bytes as [| b r IH]; intros cur Hcur; cbn [cr_lines].
  - cbn. rewrite app_nil_r. auto.
  - destruct (Byte.eqb b "013"%byte) eqn:Hb.
    + apply Byte.byte_dec_bl in Hb. subst b.
      destruct (IH [] (fun H => H)) as (Hcat & Hall & Hrest).
      destruct (cr_lines [] r) as [ls rest]. cbn [fst snd] in *.
      repeat split.
      * cbn [List.concat]. rewrite <- !app_assoc. cbn in Hcat. rewrite <- Hcat.
        reflexivity.
      * constructor; [| exact Hall]. now exists cur.
      * exact Hrest.
    + assert (Hne : b <> "013"%byte).
      { intro H. subst b. discriminate. }
      assert (Hcur' : ~ In "013"%byte (cur ++ [b])).
      { rewrite in_app_iff. cbn. intuition congruence. }
      destruct (IH (cur ++ [b])%list Hcur') as (Hcat & Hall & Hrest).
      rewrite <- app_assoc in Hcat. cbn in Hcat. auto.
Qed.

Section RunnerProperties.

Variable decode : list byte -> string.
Variable ffmpeg : list string -> child.

Lemma on_line_text (msg : string) (st : state) :
  all_stderr (on_line decode msg st)
  = all_stderr st ++ Py.strip (decode (buffer st)) ++ NL
  /\ buffer (on_line decode msg st) = [].
Proof.
  unfold on_line. cbn [duration].
  destruct (scan_duration _ _) as [d [e |]]; [split; reflexivity |].
  destruct (scan_time _ _ _) as [[text |] | e]; split; reflexivity.
Qed.

Lemma read_loop_text (msg : string) (bytes : list byte) (st : state) :
  all_stderr (read_loop decode msg bytes st)
  = all_stderr st
    ++ fold_right String.append ""
         (map (diagnostic_line decode) (fst (cr_lines (buffer st) bytes)))
  /\ buffer (read_loop decode msg bytes st) = snd (cr_lines (buffer st) bytes).
Proof.
  revert st. induction bytes as [| b r IH]; intro st;
    cbn [read_loop fold_left cr_lines].
  - cbn. now rewrite append_empty_r.
  - fold (read_loop decode msg r (step decode msg st b)).
    specialize (IH (step decode msg st b)). unfold step in *.
    destruct (Byte.eqb b "013"%byte).
    + destruct (on_line_text msg
                 {| duration := duration st; buffer := (buffer st ++ [b])%list;
                    all_stderr := all_stderr st; printed := printed st |})
        as [Ht Hb].
      cbn [all_stderr buffer] in Ht, Hb. rewrite Ht, Hb in IH.
      destruct (cr_lines [] r) as [ls rest]. cbn [fst snd map fold_right] in *.
      destruct IH as [IH1 IH2]. split; [| exact IH2].
      rewrite IH1. unfold diagnostic_line. now rewrite !append_assoc.
    + cbn [all_stderr buffer] in IH. exact IH.
Qed.

Lemma convert_result (source v_bitrate : string) (crop subtitle : option string)
    (resolution output msg : string) (w : world) :
  let process := ffmpeg (convert_cmd source v_bitrate crop subtitle resolution output) in
  snd (convert decode ffmpeg source v_bitrate crop subtitle resolution output msg w)
  = if returncode process =? 0 then Ok tt
    else Raise (Exception (diagnostics decode (stderr process))).
Proof.
  cbv zeta. unfold convert.
  destruct (returncode _ =? 0); cbn [negb snd]; [reflexivity |].
  unfold diagnostics.
  now destruct (read_loop_text msg
                  (stderr (ffmpeg (convert_cmd source v_bitrate crop subtitle
                                     resolution output))) initial) as [-> _].
Qed.

(** C10: the text [convert] raises on failure is made of exactly the lines
    of the stream that end in a carriage return, each decoded, stripped and
    followed by a newline, in order; the bytes after the last carriage
    return stay in the buffer and are in no line. *)
Theorem diagnostics_are_complete_lines (msg : string) (bytes : list byte) :
  let st := read_loop decode msg bytes initial in
  let lines := fst (cr_lines [] bytes) in
  let rest := snd (cr_lines [] bytes) in
  all_stderr st = diagnostics decode bytes
  /\ diagnostics decode bytes
     = fold_right String.append "" (map (diagnostic_line decode) lines)
  /\ buffer st = rest
  /\ bytes = (List.concat lines ++ rest)%list
  /\ Forall complete_line lines
  /\ ~ In "013"%byte rest
  /\ (forall source v_bitrate crop subtitle resolution output w,
        let process :=
          ffmpeg (convert_cmd source v_bitrate crop subtitle resolution output) in
        snd (convert decode ffmpeg source v_bitrate crop subtitle resolution
               output msg w)
        = if returncode process =? 0 then Ok tt
          else Raise (Exception (diagnostics decode (stderr process)))).
Proof.
  cbv zeta.
  destruct (read_loop_text msg bytes initial) as [Ht Hb].
  destruct (cr_lines_partition [] bytes (fun H => H)) as (Hcat & Hall & Hrest).
  cbn [initial all_stderr buffer] in Ht, Hb. cbn [app] in Hcat.
  repeat split; try assumption.
  intros. apply convert_result.
Qed.

(** On the sample stream the text has the two complete lines and not the
    unfinished one. *)
Lemma diagnostics_sample :
  diagnostics decode_ascii sample_stream
  = "Duration: 00:01:40.00, start: 0.000000" ++ NL
    ++ "frame=  700 time=00:00:29.50 bitrate=3000.1kbits/s" ++ NL.
Proof. reflexivity. Qed.

End RunnerProperties.

(** ** Failure of the transcoder and the batch *)

Section BatchProperties.

Variable decode : list byte -> string.
Variable ffmpeg : list string -> child.






End BatchProperties.


(** ** The batch at the sample scenario *)

(** Skipping a source leaves [count] where it was. *)
Lemma batch_skip (decode : list byte -> string) (ffmpeg : list string -> child)
    (opts : options) (dir : string) (total count : Z) (s : source)
    (rest : list source) (w : world) :
  let label := progress_label count total (video s) in
  exists_ w (Py.join dir (fst (Py.splitext (video s)) ++ ".avi")) = true ->
  overwrite_output opts = false ->
  batch decode ffmpeg opts dir total count (s :: rest) w
  = batch decode ffmpeg opts dir total count rest
      (print (label ++ " Skipped, file already existed!" ++ NL) (print label w)).
Proof.
  cbv zeta. intros He Ho. cbn [batch].
  replace (exists_ (print (progress_label count total (video s)) w)
             (Py.join dir (fst (Py.splitext (video s)) ++ ".avi")))
    with true by (symmetry; exact He).
  now rewrite Ho.
Qed.

(** C2, as the code runs it: three sources, the output of the second one
    already there, no overwriting, a transcoder that succeeds and writes
    nothing to its diagnostic stream.  The outcomes are Completed, Skipped,
    Completed, in that order; the labels carry 1/3, 2/3 and then 2/3 again:
    the skipped source does not advance the count, and no label carries
    3/3. *)
Theorem batch_labels_after_skip (decode : list byte -> string) :
  let run :=
    main decode (sample_ffmpeg [] 0) sample_options "out" sample_sources
      sample_world in
  snd run = Ok tt
  /\ stdout (fst run)
     = [CR ++ " 1/3: Converting a.mkv...";
        CR ++ " 1/3: Converting a.mkv... Completed" ++ NL;
        CR ++ " 2/3: Converting b.mkv...";
        CR ++ " 2/3: Converting b.mkv... Skipped, file already existed!" ++ NL;
        CR ++ " 2/3: Converting c.mkv...";
        CR ++ " 2/3: Converting c.mkv... Completed" ++ NL]
  /\ ~ In (progress_label 3 3 "c.mkv") (stdout (fst run)).
Proof.
  cbv zeta. split; [reflexivity | split; [reflexivity |]].
  cbn. intuition discriminate.
Qed.

(** ** Geometry *)

Lemma all_from_spec (p : Z -> bool) (n : nat) :
  forall lo, all_from p lo n = true ->
  forall z, lo <= z < lo + Z.of_nat n -> p z = true.
Proof.
  induction n as [| n IH]; intros lo H z Hz.
  - lia.
  - cbn [all_from] in H. apply andb_true_iff in H. destruct H as [H0 H].
    destruct (Z.eq_dec z lo) as [-> | Hne]; [exact H0 |].
    apply (IH (lo + 1) H). lia.
Qed.

(** Up to [MAX_DIMENSION] the double arithmetic of the crop width is exact. *)
Lemma width_exact_range (h : Z) :
  0 < h <= MAX_DIMENSION -> width_exact h = true.
Proof.
  intro H. apply (all_from_spec width_exact (Z.to_nat MAX_DIMENSION) 1).
  - vm_compute. reflexivity.
  - unfold MAX_DIMENSION in *. lia.
Qed.

(** Halving truncates toward zero on every difference of a width and a crop
    width within the range. *)
Lemma half_exact_range (d : Z) :
  - (4 * MAX_DIMENSION / 3) <= d <= MAX_DIMENSION -> half_exact d = true.
Proof.
  intro H.
  apply (all_from_spec half_exact
           (Z.to_nat (4 * MAX_DIMENSION / 3 + MAX_DIMENSION + 1))
           (- (4 * MAX_DIMENSION / 3))).
  - vm_compute. reflexivity.
  - unfold MAX_DIMENSION in *.
    change (4 * 65536 / 3) with 87381 in *. lia.
Qed.

Lemma calculate_cropping_range (w h : Z) :
  0 < w <= MAX_DIMENSION -> 0 < h <= MAX_DIMENSION ->
  calculate_cropping {| width := w; height := h |}
  = Ok ("crop=" ++ Py.str (4 * h / 3) ++ ":" ++ Py.str h ++ ":"
        ++ Py.str (Z.quot (w - 4 * h / 3) 2) ++ ":0").
Proof.
  intros Hw Hh. unfold calculate_cropping. cbn [width height].
  pose proof (width_exact_range h Hh) as H1. unfold width_exact in H1.
  destruct (Py.truediv h 3) as [third |]; [| discriminate]. cbn [bind].
  destruct (Py.int_of_float (third * 4)) as [n |]; [| discriminate]. cbn [bind].
  apply Z.eqb_eq in H1. subst n.
  assert (Hd : - (4 * MAX_DIMENSION / 3) <= w - 4 * h / 3 <= MAX_DIMENSION).
  { unfold MAX_DIMENSION in *. change (4 * 65536 / 3) with 87381.
    assert (0 <= 4 * h / 3 <= 87381).
    { split; [apply Z.div_pos; lia |].
      change 87381 with (4 * 65536 / 3). apply Z.div_le_mono; lia. }
    lia. }
  pose proof (half_exact_range _ Hd) as H2. unfold half_exact in H2.
  destruct (Py.truediv (w - 4 * h / 3) 2) as [half |]; [| discriminate].
  cbn [bind].
  destruct (Py.int_of_float half) as [n |]; [| discriminate]. cbn [bind].
  apply Z.eqb_eq in H2. now subst n.
Qed.

(** On operands that are doubles as they stand, rounding the exact quotient
    gives what the division of doubles gives: a sample of both ways of
    [Py.truediv]. *)
Lemma rounding_agrees_sample :
  all_from
    (fun a =>
       rounding_agrees a 3 && rounding_agrees (- a) 100 && rounding_agrees 1 a
       && rounding_agrees (a * 1234567) (a + 17)
       && rounding_agrees (2 ^ 52 + a) (2 ^ 52 - a))
    1 500
  = true.
Proof. vm_compute. reflexivity. Qed.




Lemma small_range (a : Z) : Z.abs a <= MAX_DIMENSION -> Py.small a = true.
Proof.
  intro H. unfold Py.small. apply Z.ltb_lt.
  change (2 ^ 53) with 9007199254740992. unfold MAX_DIMENSION in H. lia.
Qed.

Lemma truediv_range (a b : Z) :
  Z.abs a <= MAX_DIMENSION -> Z.abs b <= MAX_DIMENSION -> b <> 0 ->
  Py.truediv a b = Ok (Py.float_of_small a / Py.float_of_small b)%float.
Proof.
  intros Ha Hb Hz. unfold Py.truediv.
  apply Z.eqb_neq in Hz. rewrite Hz.
  now rewrite (small_range a Ha), (small_range b Hb).
Qed.

Lemma truediv_by_zero (a : Z) : Py.truediv a 0 = Raise ZeroDivisionError.
Proof. reflexivity. Qed.







(** ** Timestamps *)

Lemma has_char_append (c : ascii) (a b : string) :
  Py.has_char c (a ++ b) = Py.has_char c a || Py.has_char c b.
Proof.
  induction a as [| x a IH]; cbn; [reflexivity |].
  now rewrite IH, orb_assoc.
Qed.

Lemma digits_have_no (c : ascii) (d : string) :
  Py.is_digit c = false -> all_digits d = true -> Py.has_char c d = false.
Proof.
  intros Hc. induction d as [| x d IH]; cbn; [reflexivity |].
  intro H. apply andb_true_iff in H. destruct H as [Hx Hd].
  rewrite (IH Hd), orb_false_r. apply Ascii.eqb_neq. congruence.
Qed.

Lemma split_without_sep (sep : ascii) (a : string) :
  Py.has_char sep a = false -> Py.split sep a = [a].
Proof.
  induction a as [| x a IH]; cbn; [reflexivity |].
  intro H. apply orb_false_iff in H. destruct H as [Hx Ha].
  rewrite Ascii.eqb_sym, Hx, (IH Ha). reflexivity.
Qed.

Lemma split_at_sep (sep : ascii) (a b : string) :
  Py.has_char sep a = false ->
  Py.split sep (a ++ String sep b) = a :: Py.split sep b.
Proof.
  induction a as [| x a IH]; cbn.
  - intros _. now rewrite Ascii.eqb_refl.
  - intro H. apply orb_false_iff in H. destruct H as [Hx Ha].
    rewrite Ascii.eqb_sym, Hx, (IH Ha). reflexivity.
Qed.

Lemma int_digits_value (d : string) :
  all_digits d = true ->
  forall acc,
    Py.int_digits acc d
    = Some (fold_left (fun a c => 10 * a + (Z.of_N (N_of_ascii c) - 48))
              (list_ascii_of_string d) acc).
Proof.
  induction d as [| x d IH]; cbn; [reflexivity |].
  intros H acc. apply andb_true_iff in H. destruct H as [Hx Hd].
  unfold Py.is_digit, Py.digit_value in *.
  destruct ((48 <=? Z.of_N (N_of_ascii x)) && (Z.of_N (N_of_ascii x) <=? 57));
    [| discriminate].
  apply (IH Hd).
Qed.

(** [int] of a run of digits is the number it denotes. *)
Lemma int_of_digit_run (d : string) :
  digit_run d -> Py.int d = Ok (digits_value d).
Proof.
  intros [Hne Hd]. unfold Py.int, digits_value.
  destruct d as [| x d]; [congruence |].
  now rewrite (int_digits_value _ Hd).
Qed.

Lemma digits_value_nonneg (d : string) :
  all_digits d = true -> 0 <= digits_value d.
Proof.
  unfold digits_value. intro H.
  assert (G : forall acc, 0 <= acc ->
            0 <= fold_left (fun a c => 10 * a + (Z.of_N (N_of_ascii c) - 48))
                   (list_ascii_of_string d) acc); [| apply G; lia].
  induction d as [| x d IH]; cbn [list_ascii_of_string fold_left];
    intros acc Hacc; [exact Hacc |].
  cbn [all_digits] in H. apply andb_true_iff in H. destruct H as [Hx Hd].
  apply (IH Hd). unfold Py.is_digit, Py.digit_value in Hx.
  destruct (48 <=? Z.of_N (N_of_ascii x)) eqn:Hlo; [| discriminate].
  apply Z.leb_le in Hlo. lia.
Qed.

Lemma colon_is_no_digit : Py.is_digit ":" = false.
Proof. reflexivity. Qed.

Lemma dot_is_no_digit : Py.is_digit "." = false.
Proof. reflexivity. Qed.

(** [HH:MM:SS.ms] is cut at the dot and read as [3600 * H + 60 * M + S]. *)
Lemma timestamp_seconds_value (h m s f : string) :
  digit_run h -> digit_run m -> digit_run s -> digit_run f ->
  timestamp_seconds (timestamp h m s f)
  = Ok (3600 * digits_value h + 60 * digits_value m + digits_value s).
Proof.
  intros Hh Hm Hs Hf. unfold timestamp_seconds, timestamp.
  assert (Hhms : Py.has_char "." (h ++ ":" ++ m ++ ":" ++ s) = false).
  { rewrite !has_char_append.
    rewrite (digits_have_no "." h dot_is_no_digit (proj2 Hh)).
    rewrite (digits_have_no "." m dot_is_no_digit (proj2 Hm)).
    rewrite (digits_have_no "." s dot_is_no_digit (proj2 Hs)).
    reflexivity. }
  replace (h ++ ":" ++ m ++ ":" ++ s ++ "." ++ f)
    with ((h ++ ":" ++ m ++ ":" ++ s) ++ String "." f)
    by (rewrite !append_assoc; reflexivity).
  rewrite (split_at_sep "." _ f Hhms).
  change (Py.getitem (?x :: ?l) 0) with (Ok x) at 1.
  - cbn [bind]. unfold seconds.
    change (h ++ ":" ++ m ++ ":" ++ s) with (h ++ String ":" (m ++ String ":" s)).
    rewrite (split_at_sep ":" h _ (digits_have_no ":" h colon_is_no_digit (proj2 Hh))).
    rewrite (split_at_sep ":" m _ (digits_have_no ":" m colon_is_no_digit (proj2 Hm))).
    rewrite (split_without_sep ":" s (digits_have_no ":" s colon_is_no_digit (proj2 Hs))).
    unfold ftr. cbn [weighted].
    rewrite (int_of_digit_run h Hh), (int_of_digit_run m Hm), (int_of_digit_run s Hs).
    cbn [bind]. unfold sum. cbn [fold_left]. f_equal. lia.
Qed.

(** *** What the regular expressions cut out *)

Lemma span_digits_spec (s : string) :
  s = fst (Re.span_digits s) ++ snd (Re.span_digits s)
  /\ all_digits (fst (Re.span_digits s)) = true.
Proof.
  induction s as [| c r IH]; cbn [Re.span_digits]; [split; reflexivity |].
  destruct (Py.is_digit c) eqn:Hc; [| split; reflexivity].
  destruct (Re.span_digits r) as [d rest]. cbn [fst snd] in *.
  destruct IH as [IH1 IH2]. split.
  - cbn. now rewrite <- IH1.
  - cbn. now rewrite Hc, IH2.
Qed.

Lemma digits_then_spec (c : ascii) (s d rest : string) :
  Re.digits_then c s = Some (d, rest) ->
  digit_run d /\ s = d ++ String c rest.
Proof.
  unfold Re.digits_then.
  destruct (span_digits_spec s) as [Hs Hd].
  destruct (Re.span_digits s) as [d' rest']. cbn [fst snd] in *.
  destruct d' as [| x d']; [discriminate |].
  destruct rest' as [| y rest']; [discriminate |].
  destruct (Ascii.eqb y c) eqn:Hy; [| discriminate].
  apply Ascii.eqb_eq in Hy. subst y.
  intro H. injection H as <- <-.
  split; [split; [discriminate | exact Hd] | exact Hs].
Qed.

Lemma timestamp_append (h m sec f post : string) :
  timestamp h m sec f ++ post
  = h ++ String ":" (m ++ String ":" (sec ++ String "." (f ++ post))).
Proof.
  unfold timestamp. rewrite append_assoc. cbn [append]. f_equal. f_equal.
  rewrite append_assoc. cbn [append]. f_equal. f_equal.
  rewrite append_assoc. cbn [append]. reflexivity.
Qed.

Lemma match_timestamp_spec (s g : string) :
  Re.match_timestamp s = Some g ->
  exists h m sec f post,
    digit_run h /\ digit_run m /\ digit_run sec /\ digit_run f
    /\ g = timestamp h m sec f
    /\ s = g ++ post.
Proof.
  unfold Re.match_timestamp.
  destruct (Re.digits_then ":" s) as [[h s1] |] eqn:H1; [| discriminate].
  destruct (Re.digits_then ":" s1) as [[m s2] |] eqn:H2; [| discriminate].
  destruct (Re.digits_then "." s2) as [[sec s3] |] eqn:H3; [| discriminate].
  apply digits_then_spec in H1, H2, H3.
  destruct H1 as [Hh ->], H2 as [Hm ->], H3 as [Hsec ->].
  destruct (span_digits_spec s3) as [Hs3 Hf].
  destruct (Re.span_digits s3) as [f post]. cbn [fst snd] in *.
  destruct f as [| x f]; [discriminate |].
  intro H. injection H as <-.
  exists h, m, sec, (String x f), post.
  split; [exact Hh |]. split; [exact Hm |]. split; [exact Hsec |].
  split; [split; [discriminate | exact Hf] |]. split; [reflexivity |].
  rewrite Hs3. symmetry. apply timestamp_append.
Qed.

Lemma skip_prefix (p s : string) : Re.skip (String.length p) (p ++ s) = s.
Proof. induction p as [| c p IH]; cbn; [now destruct s | exact IH]. Qed.

Lemma match_here_spec (literal s g : string) :
  Re.match_here literal s = Some g ->
  exists h m sec f post,
    digit_run h /\ digit_run m /\ digit_run sec /\ digit_run f
    /\ g = timestamp h m sec f
    /\ s = literal ++ g ++ post.
Proof.
  unfold Re.match_here.
  destruct (String.prefix literal s) eqn:Hp; [| discriminate].
  apply prefix_spec in Hp. destruct Hp as [rest ->].
  rewrite skip_prefix. intro Hm.
  apply match_timestamp_spec in Hm.
  destruct Hm as (h & m & sec & f & post & Hh & Hmm & Hs & Hf & Hg & ->).
  exists h, m, sec, f, post. auto 10.
Qed.

(** Group 1 of a match is a timestamp of four runs of digits, and it stands
    in the line right after the literal text. *)
Lemma search_spec (literal line g : string) :
  Re.search literal line = Some g ->
  exists h m sec f pre post,
    digit_run h /\ digit_run m /\ digit_run sec /\ digit_run f
    /\ g = timestamp h m sec f
    /\ line = pre ++ literal ++ g ++ post.
Proof.
  assert (Here : forall s, Re.match_here literal s = Some g ->
            exists h m sec f pre post,
              digit_run h /\ digit_run m /\ digit_run sec /\ digit_run f
              /\ g = timestamp h m sec f
              /\ s = pre ++ literal ++ g ++ post).
  { intros s Hm. apply match_here_spec in Hm.
    destruct Hm as (h & m & sec & f & post & Hh & Hmm & Hs & Hf & Hg & Hr).
    exists h, m, sec, f, "", post. auto 10. }
  induction line as [| c r IH]; cbn [Re.search].
  - destruct (Re.match_here literal "") as [g' |] eqn:Hm; [| discriminate].
    intro H. injection H as ->. now apply Here.
  - destruct (Re.match_here literal (String c r)) as [g' |] eqn:Hm.
    + intro H. injection H as ->. now apply Here.
    + intro H. destruct (IH H)
        as (h & m & sec & f & pre & post & Hh & Hmm & Hs & Hf & Hg & Hr).
      exists h, m, sec, f, (String c pre), post. rewrite Hr. auto 10.
Qed.

Lemma search_seconds (literal line g : string) :
  Re.search literal line = Some g ->
  exists h m sec f,
    g = timestamp h m sec f
    /\ digit_run h /\ digit_run m /\ digit_run sec /\ digit_run f
    /\ timestamp_seconds g
       = Ok (3600 * digits_value h + 60 * digits_value m + digits_value sec).
Proof.
  intro H. apply search_spec in H.
  destruct H as (h & m & sec & f & pre & post & Hh & Hm & Hs & Hf & -> & _).
  exists h, m, sec, f.
  split; [reflexivity |]. split; [exact Hh |]. split; [exact Hm |].
  split; [exact Hs |]. split; [exact Hf |].
  now apply timestamp_seconds_value.
Qed.

Lemma search_duration_contains (line g : string) :
  Re.search "Duration: " line = Some g -> Py.contains "Duration" line = true.
Proof.
  intro H. apply search_spec in H.
  destruct H as (h & m & sec & f & pre & post & _ & _ & _ & _ & _ & ->).
  apply contains_spec. exists pre, (": " ++ g ++ post).
  reflexivity.
Qed.

(** *** The duration *)

Lemma scan_duration_known (line : string) (d : Z) :
  scan_duration line (DInt d) = (DInt d, None).
Proof. unfold scan_duration. cbn [is_none]. now rewrite andb_false_r. Qed.

Lemma scan_duration_text (line s : string) :
  scan_duration line (DStr s) = (DStr s, None).
Proof. unfold scan_duration. cbn [is_none]. now rewrite andb_false_r. Qed.

Lemma scan_duration_silent (line : string) (d : duration_value) :
  Re.search "Duration: " line = None -> scan_duration line d = (d, None).
Proof.
  intro H. unfold scan_duration. rewrite H.
  now destruct (Py.contains "Duration" line && is_none d).
Qed.

Lemma scan_duration_announced (line g : string) (n : Z) :
  Re.search "Duration: " line = Some g -> timestamp_seconds g = Ok n ->
  scan_duration line DNone = (DInt n, None).
Proof.
  intros Hs Hn. unfold scan_duration.
  rewrite (search_duration_contains line g Hs), Hs. cbn [is_none andb].
  unfold timestamp_seconds in Hn.
  destruct (Py.getitem (Py.split "." g) 0) as [hms | e]; [| discriminate].
  cbn [bind] in Hn. now rewrite Hn.
Qed.

(** *** The position *)









Section ScanProperties.

Variable decode : list byte -> string.

Lemma on_line_step (msg : string) (st : state) :
  (duration (on_line decode msg st), printed (on_line decode msg st))
  = line_step msg (duration st, printed st) (Py.strip (decode (buffer st))).
Proof.
  unfold on_line, line_step. cbn [fst snd duration].
  destruct (scan_duration _ _) as [d [e |]]; [reflexivity |].
  cbn [set_duration duration printed].
  destruct (scan_time _ _ _) as [[text |] | e]; reflexivity.
Qed.

(** The loop over the bytes does to the duration and to the console what
    the scan of the complete lines does, line by line. *)
Lemma read_loop_lines (msg : string) (bytes : list byte) :
  forall st,
    (duration (read_loop decode msg bytes st),
     printed (read_loop decode msg bytes st))
    = fold_left (line_step msg)
        (map (fun l => Py.strip (decode l)) (fst (cr_lines (buffer st) bytes)))
        (duration st, printed st).
Proof.
  induction bytes as [| b r IH]; intro st; cbn [read_loop fold_left cr_lines].
  - reflexivity.
  - fold (read_loop decode msg r (step decode msg st b)).
    rewrite IH. unfold step.
    destruct (Byte.eqb b "013"%byte).
    + destruct (on_line_text decode msg
                 {| duration := duration st; buffer := (buffer st ++ [b])%list;
                    all_stderr := all_stderr st; printed := printed st |})
        as [_ Hb].
      rewrite Hb. rewrite on_line_step. cbn [duration printed buffer].
      destruct (cr_lines [] r) as [ls rest]. reflexivity.
    + reflexivity.
Qed.

End ScanProperties.

Lemma line_step_duration (msg line : string) (acc : duration_value * list string) :
  fst (line_step msg acc line) = fst (scan_duration line (fst acc)).
Proof.
  unfold line_step. destruct (scan_duration line (fst acc)) as [d [e |]];
    [reflexivity |].
  now destruct (scan_time msg line d) as [[text |] | e].
Qed.

(** The text [HH:MM:SS] that [duration] holds between its two assignments
    never stays: the conversion that follows does not raise. *)
Lemma duration_never_text (decode : list byte -> string) (msg : string)
    (bytes : list byte) (s : string) :
  duration (read_loop decode msg bytes initial) <> DStr s.
Proof.
  pose proof (f_equal fst (read_loop_lines decode msg bytes initial)) as H.
  cbn [fst initial buffer duration printed] in H. rewrite H. clear H.
  generalize (map (fun l => Py.strip (decode l)) (fst (cr_lines [] bytes))).
  intro lines.
  assert (G : forall acc, (forall t, fst acc <> DStr t) ->
            fst (fold_left (line_step msg) lines acc) <> DStr s);
    [| apply G; discriminate].
  induction lines as [| line lines IH]; intros acc Hacc; cbn [fold_left];
    [apply Hacc |].
  apply IH. intro t. rewrite line_step_duration.
  destruct acc as [[| u | d] out]; cbn [fst] in *.
  - destruct (Re.search "Duration: " line) as [g |] eqn:Hs.
    + destruct (search_seconds _ _ _ Hs) as (h & m & sec & f & _ & _ & _ & _ & _ & Hc).
      now rewrite (scan_duration_announced line g _ Hs Hc).
    + now rewrite (scan_duration_silent line DNone Hs).
  - now rewrite scan_duration_text.
  - now rewrite scan_duration_known.
Qed.

Section TimestampClaims.

Variable decode : list byte -> string.



End TimestampClaims.




(** * Further properties: the prompts, the scan and the files *)

(** ** Decimal numerals and the progress label *)

Lemma char_of_digit (c : ascii) (d : Z) :
  Py.digit_value c = Some d ->
  d = Z.of_N (N_of_ascii c) - 48 /\ 0 <= d <= 9 /\ Py.is_digit c = true.
Proof.
  unfold Py.is_digit, Py.digit_value.
  destruct (48 <=? Z.of_N (N_of_ascii c)) eqn:Hlo;
    destruct (Z.of_N (N_of_ascii c) <=? 57) eqn:Hhi; cbn [andb];
    try discriminate.
  intro H. injection H as <-. apply Z.leb_le in Hlo, Hhi. lia.
Qed.

Lemma fold_digits_uint (d : Decimal.uint) :
  forall acc : positive,
    fold_digits (Z.pos acc) (NilEmpty.string_of_uint d)
    = Z.pos (Pos.of_uint_acc d acc)
    /\ all_digits (NilEmpty.string_of_uint d) = true.
Proof.
  induction d; intro acc; cbn [NilEmpty.string_of_uint Pos.of_uint_acc];
    try (split; reflexivity);
    unfold fold_digits in *; cbn [list_ascii_of_string fold_left all_digits];
    match goal with
    | |- context [Pos.of_uint_acc d ?a] =>
        destruct (IHd a) as [IH1 IH2]; rewrite <- IH1, IH2; split;
        [f_equal;
         match goal with
         | |- context [Z.of_N (N_of_ascii ?c)] =>
             let v := eval vm_compute in (Z.of_N (N_of_ascii c)) in
             change (Z.of_N (N_of_ascii c)) with v
         end; lia
        | reflexivity]
    end.
Qed.

Lemma fold_digits_zero (d : Decimal.uint) :
  fold_digits 0 (NilEmpty.string_of_uint d) = Z.of_N (Pos.of_uint d).
Proof.
  induction d; cbn [NilEmpty.string_of_uint Pos.of_uint];
    try reflexivity;
    unfold fold_digits in *; cbn [list_ascii_of_string fold_left];
    try exact IHd;
    match goal with
    | |- context [Pos.of_uint_acc d ?a] =>
        destruct (fold_digits_uint d a) as [H _]; unfold fold_digits in H;
        cbn [Z.of_N]; rewrite <- H; reflexivity
    end.
Qed.

(** [str] of a positive number: its digits, the first of them not a zero,
    and the number is what the digits denote. *)
Lemma str_of_positive (p : positive) :
  exists c r,
    Py.str (Z.pos p) = String c r
    /\ all_digits (String c r) = true
    /\ c <> "0"%char
    /\ digits_value (String c r) = Z.pos p.
Proof.
  unfold Py.str. cbn [Z.to_int NilZero.string_of_int].
  pose proof (DecimalPos.Unsigned.to_uint_nonnil p) as Hnil.
  pose proof (DecimalPos.Unsigned.of_to p) as Hof.
  pose proof (DecimalPos.Unsigned.to_of (Pos.to_uint p)) as Hnorm.
  rewrite Hof in Hnorm. cbn [N.to_uint] in Hnorm.
  pose proof (fold_digits_zero (Pos.to_uint p)) as Hval. rewrite Hof in Hval.
  pose proof (proj2 (fold_digits_uint (Pos.to_uint p) 1)) as Hdig.
  pose proof (DecimalPos.Unsigned.to_uint_nonzero p) as Hz.
  unfold NilZero.string_of_uint.
  destruct (Pos.to_uint p) as [| u | u | u | u | u | u | u | u | u | u] eqn:Hu;
    try congruence;
    cbn [NilEmpty.string_of_uint] in *;
    try (eexists; eexists; repeat split;
         [exact Hdig | discriminate | exact Hval]).
  (* a leading zero is not normal *)
  exfalso. unfold Decimal.unorm in Hnorm. cbn [Decimal.nzhead] in Hnorm.
  pose proof (DecimalFacts.nb_digits_nzhead u) as Hle.
  destruct (Decimal.nzhead u) eqn:Hn;
    try discriminate; [apply Hz; exact Hnorm |].
  injection Hnorm as ->. cbn [Decimal.nb_digits] in Hle. lia.
Qed.

Lemma fold_digits_bounds (s : string) :
  all_digits s = true ->
  forall acc, 0 <= acc ->
    acc * 10 ^ Z.of_nat (String.length s) <= fold_digits acc s
    < (acc + 1) * 10 ^ Z.of_nat (String.length s).
Proof.
  unfold fold_digits.
  induction s as [| c r IH]; intros Hd acc Hacc.
  - cbn. lia.
  - cbn [all_digits] in Hd. apply andb_true_iff in Hd. destruct Hd as [Hc Hr].
    cbn [list_ascii_of_string fold_left String.length].
    unfold Py.is_digit in Hc.
    destruct (Py.digit_value c) as [d |] eqn:Hv; [| discriminate].
    apply char_of_digit in Hv. destruct Hv as (-> & Hd09 & _).
    specialize (IH Hr (10 * acc + (Z.of_N (N_of_ascii c) - 48)) ltac:(lia)).
    rewrite Nat2Z.inj_succ, Z.pow_succ_r by lia.
    assert (0 < 10 ^ Z.of_nat (String.length r)) by (apply Z.pow_pos_nonneg; lia).
    nia.
Qed.

Lemma str_length_monotone (a b : Z) :
  0 < a <= b ->
  (String.length (Py.str a) <= String.length (Py.str b))%nat.
Proof.
  intros [Ha Hab].
  destruct a as [| p |]; try lia. destruct b as [| q |]; try lia.
  destruct (str_of_positive p) as (ca & ra & Ea & Da & Na & Va).
  destruct (str_of_positive q) as (cb & rb & Eb & Db & Nb & Vb).
  rewrite Ea, Eb. cbn [String.length].
  destruct (Nat.le_gt_cases (String.length ra) (String.length rb)) as [H | H];
    [lia | exfalso].
  (* [a] has more digits than [b] and no zero in front *)
  pose proof (fold_digits_bounds _ Db 0 ltac:(lia)) as Ub.
  cbn [all_digits] in Da. apply andb_true_iff in Da. destruct Da as [Hca Hra].
  change (digits_value (String cb rb)) with (fold_digits 0 (String cb rb)) in Vb.
  rewrite Vb in Ub. cbn [String.length] in Ub.
  change (digits_value (String ca ra))
    with (fold_digits (10 * 0 + (Z.of_N (N_of_ascii ca) - 48)) ra) in Va.
  unfold Py.is_digit in Hca.
  destruct (Py.digit_value ca) as [d |] eqn:Hv; [| discriminate].
  pose proof Hv as Hv'. apply char_of_digit in Hv'. destruct Hv' as (Ed & Hd09 & _).
  assert (1 <= d).
  { destruct (Z.eq_dec d 0) as [-> |]; [| lia]. exfalso. apply Na.
    rewrite <- (ascii_N_embedding ca). replace (N_of_ascii ca) with 48%N by lia.
    reflexivity. }
  pose proof (fold_digits_bounds _ Hra (10 * 0 + (Z.of_N (N_of_ascii ca) - 48))
                ltac:(lia)) as La.
  rewrite Va in La.
  assert (10 ^ Z.of_nat (S (String.length rb)) <= 10 ^ Z.of_nat (String.length ra))
    by (apply Z.pow_le_mono_r; lia).
  assert (0 < 10 ^ Z.of_nat (String.length ra)) by (apply Z.pow_pos_nonneg; lia).
  nia.
Qed.

Lemma length_append (a b : string) :
  String.length (a ++ b) = (String.length a + String.length b)%nat.
Proof. induction a as [| c a IH]; cbn; [reflexivity | now rewrite IH]. Qed.

Lemma length_repeat_char (c : ascii) (n : nat) :
  String.length (Py.repeat_char c n) = n.
Proof. induction n as [| n IH]; cbn; [reflexivity | now rewrite IH]. Qed.

(** The number in a progress label takes as many characters as the total
    does, whatever it is from 1 to the total: it is set to the right of
    blanks, not of zeros. *)
Theorem progress_label_width (count total : Z) (name : string) :
  0 < count <= total ->
  let field := Py.rjust (Py.str count) (Py.len (Py.str total)) " " in
  let blanks := (String.length (Py.str total) - String.length (Py.str count))%nat in
  field = Py.repeat_char " " blanks ++ Py.str count
  /\ String.length field = String.length (Py.str total)
  /\ String.length (progress_label count total name)
     = String.length (progress_label total total name).
Proof.
  intros H field blanks.
  pose proof (str_length_monotone count total H) as Hle.
  assert (Hf : field = Py.repeat_char " " blanks ++ Py.str count).
  { subst field blanks. unfold Py.rjust, Py.len. f_equal. f_equal. lia. }
  assert (Hl : String.length field = String.length (Py.str total)).
  { rewrite Hf, length_append, length_repeat_char. subst blanks. lia. }
  split; [exact Hf | split; [exact Hl |]].
  unfold progress_label. fold field.
  assert (Ht : Py.rjust (Py.str total) (Py.len (Py.str total)) " " = Py.str total).
  { unfold Py.rjust, Py.len. now rewrite Z.sub_diag. }
  rewrite Ht. rewrite !length_append, Hl. reflexivity.
Qed.

(** The theorem on the second of twelve sources. *)
Lemma progress_label_width_sample :
  Py.rjust (Py.str 2) (Py.len (Py.str 12)) " " = " 2"
  /\ progress_label 2 12 "b.mkv" = CR ++ "  2/12: Converting b.mkv...".
Proof.
  split.
  - exact (proj1 (progress_label_width 2 12 "b.mkv" ltac:(lia))).
  - reflexivity.
Defined.


(** ** What the prompts read *)

Lemma strip_by_nothing (p : ascii -> bool) (s : string) :
  (forall c, Py.has_char c s = true -> p c = false) ->
  Builtins.lstrip_by p s = s /\ Builtins.rstrip_by p s = s.
Proof.
  induction s as [| c r IH]; intro H; [split; reflexivity |].
  assert (Hc : p c = false).
  { apply H. cbn. now rewrite Ascii.eqb_refl. }
  assert (Hr : forall d, Py.has_char d r = true -> p d = false).
  { intros d Hd. apply H. cbn. now rewrite Hd, orb_true_r. }
  destruct (IH Hr) as [_ IH2]. split.
  - cbn. now rewrite Hc.
  - cbn. rewrite IH2, Hc. now destruct r.
Qed.

Lemma digit_char_cases (c : ascii) :
  Builtins.is_digit_char c = true ->
  Builtins.is_int_space c = false /\ c <> "-"%char /\ c <> "+"%char
  /\ c <> "_"%char
  /\ (Py.is_digit c = false -> Py.digit_value c = None).
Proof.
  unfold Builtins.is_digit_char, Builtins.is_int_space, Py.is_digit.
  intro H. repeat split.
  - destruct (Z.of_N (N_of_ascii c) =? 32) eqn:E1;
      destruct (Z.of_N (N_of_ascii c) =? 133) eqn:E2;
      destruct (Z.of_N (N_of_ascii c) =? 160) eqn:E3;
      destruct ((9 <=? Z.of_N (N_of_ascii c)) && (Z.of_N (N_of_ascii c) <=? 13)) eqn:E4;
      try reflexivity; exfalso;
      rewrite ?andb_true_iff, ?Z.eqb_eq, ?Z.leb_le in *;
      rewrite !orb_true_iff, andb_true_iff, !Z.eqb_eq, !Z.leb_le in H; lia.
  - intros ->. discriminate.
  - intros ->. discriminate.
  - intros ->. discriminate.
  - now destruct (Py.digit_value c).
Qed.

Lemma all_digit_chars_in (s : string) :
  Builtins.all_digit_chars s = true ->
  forall c, Py.has_char c s = true -> Builtins.is_digit_char c = true.
Proof.
  induction s as [| x r IH]; cbn; [discriminate |].
  intros H c Hc. apply andb_true_iff in H. destruct H as [Hx Hr].
  apply orb_true_iff in Hc. destruct Hc as [Hc | Hc]; [| now apply IH].
  apply Ascii.eqb_eq in Hc. now subst.
Qed.

Lemma grouped_digits_nonneg (s : string) :
  forall after acc n,
    Builtins.grouped_digits after acc s = Some n -> 0 <= acc -> 0 <= n.
Proof.
  induction s as [| c r IH]; intros after acc n; cbn [Builtins.grouped_digits].
  - destruct after; [| discriminate]. intros H. injection H as <-. auto.
  - destruct (Py.digit_value c) as [d |] eqn:Hd.
    + apply char_of_digit in Hd. intros H Hacc. apply (IH _ _ _ H). lia.
    + destruct (Ascii.eqb c "_" && after); [| discriminate].
      intros H Hacc. apply (IH _ _ _ H Hacc).
Qed.

Lemma grouped_digits_of_digit_chars (s : string) :
  Builtins.all_digit_chars s = true ->
  forall after acc n,
    Builtins.grouped_digits after acc s = Some n -> all_digits s = true.
Proof.
  induction s as [| c r IH]; intros Hs after acc n; [reflexivity |].
  cbn [Builtins.all_digit_chars] in Hs. apply andb_true_iff in Hs.
  destruct Hs as [Hc Hr]. cbn [Builtins.grouped_digits all_digits].
  destruct (digit_char_cases c Hc) as (_ & _ & _ & Hu & Hn).
  destruct (Py.digit_value c) as [d |] eqn:Hd.
  - apply char_of_digit in Hd. destruct Hd as (_ & _ & ->).
    intro H. now rewrite (IH Hr _ _ _ H).
  - apply Ascii.eqb_neq in Hu. now rewrite Hu.
Qed.

(** On a string that [isdigit] takes, [int] reads the string as it stands,
    with no blank to drop and no sign. *)
Lemma int_of_isdigit (x : string) :
  Builtins.isdigit x = true ->
  Builtins.int x
  = match Builtins.grouped_digits false 0 x with
    | Some n => Ok n
    | None => Raise ValueError
    end.
Proof.
  intro H. unfold Builtins.isdigit in H.
  destruct x as [| c r]; [discriminate |].
  pose proof (all_digit_chars_in _ H) as Hin.
  assert (Hns : forall d, Py.has_char d (String c r) = true ->
                Builtins.is_int_space d = false).
  { intros d Hd. now apply digit_char_cases, Hin. }
  destruct (strip_by_nothing _ _ Hns) as [Hl Hr].
  unfold Builtins.int. rewrite Hl, Hr.
  assert (Hc : Builtins.is_digit_char c = true).
  { apply Hin. cbn. now rewrite Ascii.eqb_refl. }
  destruct (digit_char_cases c Hc) as (_ & Hm & Hp & _).
  unfold Builtins.split_sign.
  apply Ascii.eqb_neq in Hm, Hp. rewrite Hm, Hp.
  now destruct (Builtins.grouped_digits false 0 (String c r)).
Qed.

Lemma int_of_isdigit_nonneg (x : string) (n : Z) :
  Builtins.isdigit x = true -> Builtins.int x = Ok n -> 0 <= n.
Proof.
  intros H Hn. rewrite (int_of_isdigit x H) in Hn.
  destruct (Builtins.grouped_digits false 0 x) as [m |] eqn:Hg; [| discriminate].
  injection Hn as <-. apply (grouped_digits_nonneg _ _ _ _ Hg). lia.
Qed.

Lemma int_of_superscript (x : string) :
  Builtins.isdigit x = true -> all_digits x = false ->
  Builtins.int x = Raise ValueError.
Proof.
  intros H Hd. rewrite (int_of_isdigit x H).
  destruct (Builtins.grouped_digits false 0 x) as [m |] eqn:Hg; [| reflexivity].
  unfold Builtins.isdigit in H. destruct x as [| c r]; [discriminate |].
  rewrite (grouped_digits_of_digit_chars _ H _ _ _ Hg) in Hd. discriminate.
Qed.

Lemma grouped_digits_of_digits (d : string) :
  all_digits d = true ->
  forall after acc,
    d <> "" \/ after = true ->
    Builtins.grouped_digits after acc d = Py.int_digits acc d.
Proof.
  induction d as [| c r IH]; intros Hd after acc Hne.
  - destruct Hne as [Hne | ->]; [congruence | reflexivity].
  - cbn [all_digits] in Hd. apply andb_true_iff in Hd. destruct Hd as [Hc Hr].
    cbn [Builtins.grouped_digits Py.int_digits]. unfold Py.is_digit in Hc.
    destruct (Py.digit_value c) as [v |]; [| discriminate].
    apply IH; [exact Hr | now right].
Qed.

Lemma digits_are_digit_chars (d : string) :
  all_digits d = true -> Builtins.all_digit_chars d = true.
Proof.
  induction d as [| c r IH]; [reflexivity |].
  cbn [all_digits Builtins.all_digit_chars]. intro H.
  apply andb_true_iff in H. destruct H as [Hc Hr].
  rewrite IH by exact Hr. rewrite andb_true_r.
  unfold Py.is_digit, Py.digit_value in Hc. unfold Builtins.is_digit_char.
  cbv zeta in Hc. destruct ((48 <=? _) && (_ <=? 57)); [reflexivity | discriminate].
Qed.

(** On a run of digits the full [int] is the [int] of the runner. *)
Lemma int_on_digit_run (d : string) :
  digit_run d -> Builtins.int d = Py.int d.
Proof.
  intros [Hne Hd].
  assert (Hi : Builtins.isdigit d = true).
  { unfold Builtins.isdigit. destruct d; [congruence |].
    now apply digits_are_digit_chars. }
  rewrite (int_of_isdigit d Hi), (grouped_digits_of_digits d Hd) by now left.
  unfold Py.int. now destruct d; [congruence |].
Qed.


Section PromptProperties.

Variable S : Type.
Variable int_error : string -> string.

Lemma and_then_return {A B : Type} (c : outcome S A)
    (k : A -> list string -> list string -> S -> outcome S B)
    (b : B) (lines shown : list string) (env : S) :
  and_then c k = Return b lines shown env ->
  exists a lines0 shown0 env0,
    c = Return a lines0 shown0 env0 /\ k a lines0 shown0 env0 = Return b lines shown env.
Proof.
  destruct c as [a l s e | s e | x l s e]; cbn [and_then]; try discriminate.
  intro H. now exists a, l, s, e.
Qed.

Lemma prompt_input_ext (prompt : string)
    (f g : string -> S -> verdict * S) (lines : list string) :
  (forall x env, f x env = g x env) ->
  forall shown env,
    _prompt_input S prompt f lines shown env
    = _prompt_input S prompt g lines shown env.
Proof.
  intro Hfg. induction lines as [| l lines IH]; intros shown env;
    cbn [_prompt_input]; [reflexivity |].
  rewrite Hfg. destruct (g (Py.strip l) env) as [[| | message] env'];
    [reflexivity | apply IH | apply IH].
Qed.

Lemma prompt_input_run (prompt : string) (v : string -> verdict)
    (pre : list string) :
  forall (lines shown : list string) (env : S),
    Forall (fun l => v (Py.strip l) <> Accept) pre ->
    _prompt_input S prompt (pure_validation v) (pre ++ lines) shown env
    = _prompt_input S prompt (pure_validation v) lines
        (shown ++ flat_map (fun l => [question prompt; complaint v l]) pre)%list
        env.
Proof.
  induction pre as [| l pre IH]; intros lines shown env Hpre.
  - cbn [app flat_map]. now rewrite app_nil_r.
  - inversion Hpre as [| ? ? Hl Hrest]; subst.
    cbn [app _prompt_input flat_map]. unfold pure_validation at 1.
    unfold complaint, write.
    destruct (v (Py.strip l)) as [| | message] eqn:Hv; [congruence | |];
      rewrite (IH _ _ _ Hrest); unfold complaint;
      rewrite <- !app_assoc; reflexivity.
Qed.

Lemma prompt_input_taken (prompt : string) (v : string -> verdict)
    (line : string) (rest shown : list string) (env : S) :
  v (Py.strip line) = Accept ->
  _prompt_input S prompt (pure_validation v) (line :: rest) shown env
  = Return (Py.strip line) rest (write (question prompt) shown) env.
Proof.
  intro H. cbn [_prompt_input]. unfold pure_validation at 1. now rewrite H.
Qed.

(** [_prompt_input] returns the first line that the validation takes, with
    its blanks stripped; before it, each line is answered with the reason,
    after the question is asked again; the lines after it are left unread.
    When no line is taken, the input runs out.  (For a validation that
    leaves the state alone, as those of [get_options] do.) *)
Theorem prompt_input_first_valid (prompt : string) (v : string -> verdict)
    (pre : list string) (shown : list string) (env : S) :
  Forall (fun l => v (Py.strip l) <> Accept) pre ->
  let asked :=
    (shown ++ flat_map (fun l => [question prompt; complaint v l]) pre
     ++ [question prompt])%list in
  (forall line rest,
      v (Py.strip line) = Accept ->
      _prompt_input S prompt (pure_validation v) (pre ++ line :: rest) shown env
      = Return (Py.strip line) rest asked env)
  /\ _prompt_input S prompt (pure_validation v) pre shown env
     = EndOfInput asked env.
Proof.
  intros Hpre asked. subst asked. split.
  - intros line rest Hline. rewrite (prompt_input_run prompt v pre _ _ _ Hpre).
    cbn [_prompt_input]. unfold pure_validation at 1. rewrite Hline.
    unfold write. now rewrite <- app_assoc.
  - rewrite <- (app_nil_r pre) at 1.
    rewrite (prompt_input_run prompt v pre _ _ _ Hpre).
    cbn [_prompt_input]. unfold write. now rewrite <- app_assoc.
Qed.

Lemma prompt_input_accepted (prompt : string) (v : string -> verdict)
    (lines : list string) :
  forall (shown : list string) (env : S) a rest shown' env',
    _prompt_input S prompt (pure_validation v) lines shown env
    = Return a rest shown' env' ->
    v a = Accept /\ exists l, In l lines /\ a = Py.strip l.
Proof.
  induction lines as [| l lines IH]; intros shown env a rest shown' env';
    cbn [_prompt_input]; [discriminate |].
  unfold pure_validation at 1.
  destruct (v (Py.strip l)) as [| | message] eqn:Hv.
  - intro H. injection H as <- _ _ _. split; [exact Hv |].
    exists l. split; [now left | reflexivity].
  - intro H. destruct (IH _ _ _ _ _ _ H) as (Ha & l' & Hin & Hl).
    split; [exact Ha |]. exists l'. split; [now right | exact Hl].
  - intro H. destruct (IH _ _ _ _ _ _ H) as (Ha & l' & Hin & Hl).
    split; [exact Ha |]. exists l'. split; [now right | exact Hl].
Qed.

Lemma yes_no_loop_run (prompt : string) (default : bool) (pre : list string) :
  forall (lines shown : list string) (env : S),
    Forall (fun l => yes_no_answer default l = None) pre ->
    yes_no_loop S prompt default (pre ++ lines) shown env
    = yes_no_loop S prompt default lines
        (shown ++ flat_map (fun _ => [question prompt; INVALID]) pre)%list env.
Proof.
  induction pre as [| l pre IH]; intros lines shown env Hpre.
  - cbn [app flat_map]. now rewrite app_nil_r.
  - inversion Hpre as [| ? ? Hl Hrest]; subst.
    cbn [app yes_no_loop flat_map]. unfold yes_no_answer in Hl.
    destruct (String.eqb l ""); [discriminate |].
    destruct (String.eqb (Py.lower (Py.strip l)) "y"); [discriminate |].
    destruct (String.eqb (Py.lower (Py.strip l)) "n"); [discriminate |].
    rewrite (IH _ _ _ Hrest). unfold write. now rewrite <- !app_assoc.
Qed.

Lemma prompt_yes_no_taken (prompt : string) (default answer : bool)
    (line : string) (rest shown : list string) (env : S) :
  yes_no_answer default line = Some answer ->
  _prompt_yes_no S prompt default (line :: rest) shown env
  = Return answer rest
      (write (question (prompt ++ (if default then " (Y/n)" else " (y/N)"))) shown)
      env.
Proof.
  unfold yes_no_answer, _prompt_yes_no. cbn [yes_no_loop]. intro H.
  destruct (String.eqb line ""); [now injection H as <- |].
  destruct (String.eqb (Py.lower (Py.strip line)) "y"); [now injection H as <- |].
  destruct (String.eqb (Py.lower (Py.strip line)) "n");
    [now injection H as <- | discriminate].
Qed.

(** [_prompt_yes_no] returns the answer of the first line that gives one:
    the default for an empty line, yes for [y] and no for [n], whatever the
    case and the blanks around.  Every line before it gets
    [# Invalid input!] and the question again; a line of blanks only is such
    a line.  It never raises but for the end of the input. *)
Theorem prompt_yes_no_first_answer (prompt : string) (default : bool)
    (pre : list string) (shown : list string) (env : S) :
  Forall (fun l => yes_no_answer default l = None) pre ->
  let asking := question (prompt ++ (if default then " (Y/n)" else " (y/N)")) in
  let asked :=
    (shown ++ flat_map (fun _ => [asking; INVALID]) pre ++ [asking])%list in
  (forall line rest answer,
      yes_no_answer default line = Some answer ->
      _prompt_yes_no S prompt default (pre ++ line :: rest) shown env
      = Return answer rest asked env)
  /\ _prompt_yes_no S prompt default pre shown env = EndOfInput asked env
  /\ (forall line, line <> "" -> Py.strip line = "" ->
      yes_no_answer default line = None)
  /\ yes_no_answer default "" = Some default.
Proof.
  intros Hpre asking asked. subst asked asking.
  unfold _prompt_yes_no. split; [| split; [| split]].
  - intros line rest answer Hline.
    rewrite (yes_no_loop_run _ default pre _ _ _ Hpre).
    cbn [yes_no_loop]. unfold yes_no_answer in Hline. unfold write.
    rewrite <- app_assoc. fold (question (prompt ++ (if default then " (Y/n)" else " (y/N)"))).
    destruct (String.eqb line ""); [now injection Hline as <- |].
    destruct (String.eqb (Py.lower (Py.strip line)) "y");
      [now injection Hline as <- |].
    destruct (String.eqb (Py.lower (Py.strip line)) "n");
      [now injection Hline as <- | discriminate].
  - rewrite <- (app_nil_r pre) at 1.
    rewrite (yes_no_loop_run _ default pre _ _ _ Hpre).
    cbn [yes_no_loop]. unfold write. now rewrite <- app_assoc.
  - intros line Hne Hblank. unfold yes_no_answer. rewrite Hblank.
    apply String.eqb_neq in Hne. now rewrite Hne.
  - reflexivity.
Qed.

End PromptProperties.

(** The theorem on three lines: a word, a line of blanks, [ Y ]. *)
Lemma prompt_yes_no_first_answer_sample :
  _prompt_yes_no unit "Crop the widescreen video to 4:3?" false
    ["maybe"; "  "; " Y "; "n"] [] tt
  = Return true ["n"]
      ["# Crop the widescreen video to 4:3? (y/N)" ++ NL; INVALID;
       "# Crop the widescreen video to 4:3? (y/N)" ++ NL; INVALID;
       "# Crop the widescreen video to 4:3? (y/N)" ++ NL] tt.
Proof.
  exact (proj1 (prompt_yes_no_first_answer unit
                  "Crop the widescreen video to 4:3?" false ["maybe"; "  "] [] tt
                  ltac:(repeat constructor))
           " Y " ["n"] true eq_refl).
Defined.

(** The theorem on the bitrate prompt: a word, a number out of range, then
    3000 between blanks. *)
Lemma prompt_input_first_valid_sample :
  let v x :=
    fst (validate_vbitrate unit (fun x => "not a number: " ++ x) x tt) in
  _prompt_input unit "Set the video bitrate" (pure_validation v)
    ["fast"; "500"; " 3000 "; "4000"] [] tt
  = Return "3000" ["4000"]
      ["# Set the video bitrate" ++ NL; "# not a number: fast" ++ NL;
       "# Set the video bitrate" ++ NL; "# Invalid input: 500" ++ NL;
       "# Set the video bitrate" ++ NL] tt.
Proof.
  cbv zeta.
  exact (proj1 (prompt_input_first_valid unit "Set the video bitrate"
                  (fun x => fst (validate_vbitrate unit
                                   (fun x => "not a number: " ++ x) x tt))
                  ["fast"; "500"] [] tt
                  ltac:(repeat constructor; discriminate))
           " 3000 " ["4000"] eq_refl).
Defined.


Section OptionProperties.

Variable S : Type.
Variable int_error : string -> string.

Lemma getitem_member {A : Type} (l : list A) (i : Z) (a : A) :
  Py.getitem l i = Ok a -> In a l.
Proof.
  unfold Py.getitem.
  destruct ((_ <? 0) || (_ <=? _)); [discriminate |].
  destruct (nth_error l _) as [b |] eqn:Hn; [| discriminate].
  intro H. injection H as <-. eapply nth_error_In; eassumption.
Qed.

Lemma prompt_choice_member (prompt : string) (options lines : list string) :
  forall (shown : list string) (env : S) option rest shown' env',
    _prompt_choice S prompt options lines shown env
    = Return option rest shown' env' ->
    In option options.
Proof.
  induction lines as [| l lines IH]; intros shown env option rest shown' env';
    cbn [_prompt_choice]; [discriminate |].
  destruct (Builtins.int (Py.strip l)) as [k | e]; cbn [bind].
  - destruct (Py.getitem options (k - 1)) as [o | e] eqn:Hg.
    + intro H. injection H as <- _ _ _. eapply getitem_member; eassumption.
    + apply IH.
  - apply IH.
Qed.

(** [_prompt_choice] only ever returns one of the options.  A line that
    reads as the number [k] chooses option [k] for [k] from 1 to the number
    of options; it also chooses, counted from the end, for [k] from 0 down
    to one minus that number, so that 0 is the last option; any other line
    gets [# Invalid input!] and the question again. *)
Theorem prompt_choice_numbers (prompt : string) (options : list string)
    (line : string) (rest shown : list string) (env : S) :
  let n := Z.of_nat (List.length options) in
  let asked :=
    write ("# " ++ prompt ++ options_text 0 options ++ " " ++ NL) shown in
  (forall lines option rest' shown' env',
      _prompt_choice S prompt options lines shown env
      = Return option rest' shown' env' ->
      In option options)
  /\ (forall k,
        Builtins.int (Py.strip line) = Ok k ->
        _prompt_choice S prompt options (line :: rest) shown env
        = if (1 - n <=? k) && (k <=? n)
          then Return (nth (Z.to_nat ((k - 1) mod n)) options "") rest asked env
          else _prompt_choice S prompt options rest (write INVALID asked) env)
  /\ (Builtins.int (Py.strip line) = Raise ValueError ->
      _prompt_choice S prompt options (line :: rest) shown env
      = _prompt_choice S prompt options rest (write INVALID asked) env).
Proof.
  intros n asked. split; [| split].
  - intros lines option rest' shown' env'. apply prompt_choice_member.
  - intros k Hk. cbn [_prompt_choice]. rewrite Hk. cbn [bind].
    pose proof (getitem_spec options (k - 1)) as Hg. cbv zeta in Hg. fold n in Hg.
    destruct ((1 - n <=? k) && (k <=? n)) eqn:Hr.
    + apply andb_true_iff in Hr. destruct Hr as [Hlo Hhi].
      apply Z.leb_le in Hlo, Hhi.
      replace ((- n <=? k - 1) && (k - 1 <? n)) with true in Hg
        by (symmetry; apply andb_true_iff; split;
            [apply Z.leb_le | apply Z.ltb_lt]; lia).
      destruct Hg as [a Ha]. rewrite Ha. fold asked. f_equal.
      unfold Py.getitem in Ha. fold n in Ha.
      destruct ((_ <? 0) || (_ <=? _)); [discriminate |].
      destruct (k - 1 <? 0) eqn:Hneg.
      * apply Z.ltb_lt in Hneg.
        replace ((k - 1) mod n) with (k - 1 + n)
          by (apply Z.mod_unique with (q := -1); lia).
        destruct (nth_error options (Z.to_nat (k - 1 + n))) eqn:Hn;
          [| discriminate].
        injection Ha as <-. symmetry. now apply nth_error_nth.
      * apply Z.ltb_ge in Hneg.
        rewrite Z.mod_small by lia.
        destruct (nth_error options (Z.to_nat (k - 1))) eqn:Hn; [| discriminate].
        injection Ha as <-. symmetry. now apply nth_error_nth.
    + replace ((- n <=? k - 1) && (k - 1 <? n)) with false in Hg.
      * rewrite Hg. reflexivity.
      * symmetry. apply andb_false_iff in Hr. apply andb_false_iff.
        destruct Hr as [Hr | Hr]; [left | right];
          [apply Z.leb_gt in Hr; apply Z.leb_gt | apply Z.leb_gt in Hr; apply Z.ltb_ge];
          lia.
  - intro Hk. cbn [_prompt_choice]. rewrite Hk. reflexivity.
Qed.

Lemma validate_vbitrate_pure (x : string) (env : S) :
  validate_vbitrate S int_error x env
  = pure_validation
      (fun x =>
         match Builtins.int x with
         | Ok n => if (1000 <=? n) && (n <=? 9000) then Accept else Reject
         | Raise _ => Fail (int_error x)
         end) x env.
Proof.
  unfold validate_vbitrate, pure_validation.
  now destruct (Builtins.int x).
Qed.

Lemma ask_subtitle_result (lines shown : list string) (env : S)
    (c : choice) rest shown' env' :
  ask_subtitle S lines shown env = Return c rest shown' env' ->
  c = External \/ exists n, c = Internal n /\ 0 <= n.
Proof.
  unfold ask_subtitle. intro H.
  apply and_then_return in H. destruct H as (chosen & l0 & s0 & e0 & _ & H).
  destruct (String.eqb chosen "External").
  - injection H as <- _ _ _. now left.
  - apply and_then_return in H. destruct H as (x & l1 & s1 & e1 & Hp & H).
    apply (prompt_input_accepted S _
             (fun x => if Builtins.isdigit x then Accept else Reject)) in Hp.
    destruct Hp as [Hv _].
    destruct (Builtins.isdigit x) eqn:Hd; [| discriminate].
    destruct (Builtins.int x) as [n | e] eqn:Hn; [| discriminate].
    injection H as <- _ _ _. right. exists n. split; [reflexivity |].
    eapply int_of_isdigit_nonneg; eassumption.
Qed.

(** What [get_options] returns: the bitrate is a line of the input,
    stripped and followed by [k], that [int] reads as a number from 1000 to
    9000; it is passed on as typed, sign, zeros and underscores included.
    The track number, when one is chosen, is not negative. *)
Theorem get_options_returns (lines shown : list string) (env : S)
    (opts : options) (rest shown' : list string) (env' : S) :
  get_options S int_error lines shown env = Return opts rest shown' env' ->
  (exists line n,
      In line lines
      /\ v_bitrate opts = Py.strip line ++ "k"
      /\ Builtins.int (Py.strip line) = Ok n
      /\ 1000 <= n <= 9000)
  /\ (forall n, subtitle_choice opts = Internal n -> 0 <= n).
Proof.
  unfold get_options. intro H.
  apply and_then_return in H. destruct H as (x & l0 & s0 & e0 & Hb & H).
  apply and_then_return in H. destruct H as (crop & l1 & s1 & e1 & _ & H).
  apply and_then_return in H. destruct H as (burn & l2 & s2 & e2 & _ & H).
  apply and_then_return in H. destruct H as (sub & l3 & s3 & e3 & Hs & H).
  apply and_then_return in H. destruct H as (ow & l4 & s4 & e4 & _ & H).
  injection H as <- _ _ _. cbn [v_bitrate subtitle_choice].
  rewrite (prompt_input_ext S _ _ _ _ validate_vbitrate_pure) in Hb.
  apply prompt_input_accepted in Hb. destruct Hb as (Hv & line & Hin & ->).
  split.
  - destruct (Builtins.int (Py.strip line)) as [n | e] eqn:Hn; [| discriminate].
    destruct ((1000 <=? n) && (n <=? 9000)) eqn:Hr; [| discriminate].
    apply andb_true_iff in Hr. destruct Hr as [H1 H2]. apply Z.leb_le in H1, H2.
    exists line, n. auto.
  - intros n ->. destruct burn.
    + apply ask_subtitle_result in Hs. destruct Hs as [Hs | (m & Hs & Hm)];
        [discriminate | now injection Hs as ->].
    + discriminate.
Qed.

(** A track number that [isdigit] takes and [int] does not read, one with a
    superscript digit in it, ends [get_options] with a [ValueError] that
    nothing catches. *)
Theorem get_options_superscript (bitrate crop track : string) (n : Z)
    (answer : bool) (rest shown : list string) (env : S) :
  Builtins.int (Py.strip bitrate) = Ok n -> 1000 <= n <= 9000 ->
  yes_no_answer false crop = Some answer ->
  Builtins.isdigit (Py.strip track) = true ->
  all_digits (Py.strip track) = false ->
  exists shown',
    get_options S int_error (bitrate :: crop :: "" :: "1" :: track :: rest) shown env
    = Uncaught ValueError rest shown' env.
Proof.
  intros Hb Hr Hc Hd Hs. unfold get_options.
  rewrite (prompt_input_ext S _ _ _ _ validate_vbitrate_pure).
  rewrite prompt_input_taken.
  2:{ rewrite Hb.
      replace ((1000 <=? n) && (n <=? 9000)) with true; [reflexivity |].
      symmetry. apply andb_true_iff. split; apply Z.leb_le; lia. }
  cbn [and_then].
  rewrite (prompt_yes_no_taken S _ false answer crop _ _ _ Hc).
  cbn [and_then].
  unfold _prompt_yes_no at 1. cbn [yes_no_loop String.eqb and_then].
  unfold ask_subtitle. cbn [_prompt_choice].
  change (Builtins.int (Py.strip "1")) with (Ok 1 : result Z). cbn [bind].
  change (Py.getitem ["Internal"; "External"] (1 - 1)) with (Ok "Internal" : result string).
  cbn [and_then String.eqb]. cbn [_prompt_input].
  unfold validate_track at 1. rewrite Hd. cbn [and_then].
  rewrite (int_of_superscript _ Hd Hs). eexists. reflexivity.
Qed.

End OptionProperties.


(** [0] chooses the last option, [External]; [3] is refused. *)
Lemma prompt_choice_numbers_sample :
  (exists shown,
      _prompt_choice unit "Burn internal or external subtitles?"
        ["Internal"; "External"] [" 0 "; "1"] [] tt
      = Return "External" ["1"] shown tt)
  /\ (exists shown,
        _prompt_choice unit "Burn internal or external subtitles?"
          ["Internal"; "External"] ["3"; "1"] [] tt
        = Return "Internal" [] shown tt).
Proof.
  split.
  - eexists.
    exact (proj1 (proj2 (prompt_choice_numbers unit
                           "Burn internal or external subtitles?"
                           ["Internal"; "External"] " 0 " ["1"] [] tt))
             0 eq_refl).
  - eexists.
    rewrite (proj1 (proj2 (prompt_choice_numbers unit
                             "Burn internal or external subtitles?"
                             ["Internal"; "External"] "3" ["1"] [] tt))
               3 eq_refl).
    reflexivity.
Defined.

(** The theorem on a whole dialogue; the bitrate is typed with a sign and
    an underscore. *)
Lemma get_options_returns_sample :
  exists opts shown,
    get_options unit (fun x => x) [" +3_000 "; "y"; ""; "1"; "2"; "n"] [] tt
    = Return opts [] shown tt
    /\ v_bitrate opts = "+3_000k"
    /\ (exists line n,
          In line [" +3_000 "; "y"; ""; "1"; "2"; "n"]
          /\ v_bitrate opts = Py.strip line ++ "k"
          /\ Builtins.int (Py.strip line) = Ok n
          /\ 1000 <= n <= 9000)
    /\ (forall n, subtitle_choice opts = Internal n -> 0 <= n).
Proof.
  eexists. eexists.
  split; [vm_compute; reflexivity |]. split; [reflexivity |].
  eapply (get_options_returns unit (fun x => x)
           [" +3_000 "; "y"; ""; "1"; "2"; "n"] [] tt _ [] _ tt).
  vm_compute. reflexivity.
Defined.

(** The theorem on the track number [²]. *)
Lemma get_options_superscript_sample :
  exists shown,
    get_options unit (fun x => x)
      ["3000"; "n"; ""; "1"; String (ascii_of_nat 178) ""; "n"] [] tt
    = Uncaught ValueError ["n"] shown tt.
Proof.
  exact (get_options_superscript unit (fun x => x) "3000" "n"
           (String (ascii_of_nat 178) "") 3000 false ["n"] [] tt
           eq_refl ltac:(lia) eq_refl eq_refl eq_refl).
Defined.

Section Ps2Properties.

Variable S : Type.
Variable int_error : string -> string.

(** The older script takes as the number of the track any text [int]
    reads, a negative number too; the newer one answers a negative number
    with [# Invalid input: ...] and asks again. *)
Theorem ps2_track_may_be_negative (line : string) (n : Z)
    (rest shown : list string) (env : S) :
  Builtins.int (Py.strip line) = Ok n ->
  (exists shown',
      ps2_internal_or_external S int_error ("1" :: line :: rest) shown env
      = Return (Internal n) rest shown' env)
  /\ (n < 0 ->
      forall prompt,
        _prompt_input S prompt (validate_track S) (line :: rest) shown env
        = _prompt_input S prompt (validate_track S) rest
            (write ("# Invalid input: " ++ Py.strip line ++ NL)
               (write (question prompt) shown)) env).
Proof.
  intro Hn. split.
  - cbn [ps2_internal_or_external]. 
    change (String.eqb (Py.strip "1") "2") with false.
    change (String.eqb (Py.strip "1") "1") with true.
    cbn [ps2_track]. rewrite Hn. cbn [and_then]. eexists. reflexivity.
  - intros Hneg prompt. cbn [_prompt_input]. unfold validate_track at 1.
    destruct (Builtins.isdigit (Py.strip line)) eqn:Hd.
    + pose proof (int_of_isdigit_nonneg _ _ Hd Hn). lia.
    + reflexivity.
Qed.

End Ps2Properties.

(** The theorem on the answer [-1]. *)
Lemma ps2_track_may_be_negative_sample :
  exists shown,
    ps2_internal_or_external unit (fun x => x) ["1"; "-1"; "n"] [] tt
    = Return (Internal (-1)) ["n"] shown tt.
Proof.
  exact (proj1 (ps2_track_may_be_negative unit (fun x => x) "-1" (-1) ["n"] [] tt
                  eq_refl)).
Defined.


(** ** The scan of the sources and the output directory *)

Lemma source_entry_fields (each_file : string) (res : resolution)
    (subs : list stream) (s : source) :
  source_entry each_file res subs = Ok s ->
  video s = Py.basename each_file /\ subtitles s = subs
  /\ calculate_cropping res = Ok (crop_cmd s)
  /\ Py.truediv (height res) (width res) = Ok (ratio s).
Proof.
  unfold source_entry.
  destruct (Py.truediv (height res) (width res)) as [r | e]; [| discriminate].
  cbn [bind]. destruct (calculate_cropping res) as [c | e]; [| discriminate].
  cbn [bind]. intro H. injection H as <-. cbn. auto.
Qed.

Lemma source_entry_range (each_file : string) (res : resolution)
    (subs : list stream) :
  in_range res -> exists s, source_entry each_file res subs = Ok s.
Proof.
  intros [Hw Hh]. unfold source_entry. destruct res as [w h]. cbn [width height] in *.
  rewrite truediv_range by (unfold MAX_DIMENSION in *; lia). cbn [bind].
  rewrite (calculate_cropping_range w h Hw Hh). cbn [bind]. eauto.
Qed.

Lemma scan_videos (probe : string -> resolution * list stream)
    (files_list : list string) :
  forall l, scan probe files_list = Ok l ->
  map video l = map Py.basename (filter is_video files_list)
  /\ map subtitles l = map (fun f => snd (probe f)) (filter is_video files_list)
  /\ map (fun s => Ok (crop_cmd s)) l
     = map (fun f => calculate_cropping (fst (probe f))) (filter is_video files_list).
Proof.
  induction files_list as [| f files IH]; intros l H; cbn [scan] in H.
  - injection H as <-. repeat split.
  - cbn [filter].
    change (Py.str_in (Py.lower (snd (Py.splitext f))) VIDEO_EXTS)
      with (is_video f) in H.
    destruct (is_video f).
    + destruct (probe f) as [res subs] eqn:Hp.
      destruct (source_entry f res subs) as [e | x] eqn:He; [| discriminate].
      cbn [bind] in H. destruct (scan probe files) as [l' | x]; [| discriminate].
      cbn [bind] in H. injection H as <-.
      destruct (IH l' eq_refl) as (H1 & H2 & H3).
      destruct (source_entry_fields _ _ _ _ He) as (Hv & Hs & Hc & _).
      cbn [map]. rewrite !Hp. cbn [fst snd].
      rewrite Hv, Hs, H1, H2, H3, Hc. repeat split.
    + now apply IH.
Qed.

(** The scan of [get_sources] gives one entry for each file whose extension,
    lowered, is a video extension, in the order of the listing, with the
    base name of the file, the subtitle streams of its probe and the crop
    command of its frame.  It ends normally when every such file has a
    frame within the range, and raises when one of them has width 0. *)
Theorem scan_lists_videos (probe : string -> resolution * list stream)
    (files_list : list string) :
  (forall l, scan probe files_list = Ok l ->
     map video l = map Py.basename (filter is_video files_list)
     /\ map subtitles l = map (fun f => snd (probe f)) (filter is_video files_list)
     /\ map (fun s => Ok (crop_cmd s)) l
        = map (fun f => calculate_cropping (fst (probe f)))
            (filter is_video files_list))
  /\ ((forall f, In f files_list -> is_video f = true -> in_range (fst (probe f))) ->
      exists l, scan probe files_list = Ok l)
  /\ (forall f, In f files_list -> is_video f = true ->
      width (fst (probe f)) = 0 ->
      exists e, scan probe files_list = Raise e).
Proof.
  split; [apply scan_videos | split].
  - induction files_list as [| f files IH]; intro H; cbn [scan]; [eauto |].
    assert (IH' : exists l, scan probe files = Ok l).
    { apply IH. intros g Hg. apply H. now right. }
    pose proof (H f (or_introl eq_refl)) as Hf. unfold is_video in Hf.
    destruct (Py.str_in _ VIDEO_EXTS); [| exact IH'].
    destruct (probe f) as [res subs]. cbn [fst] in Hf.
    destruct (source_entry_range f res subs (Hf eq_refl)) as [s ->].
    destruct IH' as [l ->]. cbn [bind]. eauto.
  - induction files_list as [| g files IH]; intros f Hin Hv Hw; [destruct Hin |].
    cbn [scan]. destruct Hin as [-> | Hin].
    + unfold is_video in Hv. rewrite Hv.
      destruct (probe f) as [res subs]. cbn [fst] in Hw.
      unfold source_entry. rewrite Hw, truediv_by_zero. cbn [bind]. eauto.
    + destruct (IH f Hin Hv Hw) as [e He]. rewrite He.
      destruct (Py.str_in _ VIDEO_EXTS); [| eauto].
      destruct (probe g) as [res subs].
      destruct (source_entry g res subs) as [s | x]; cbn [bind]; eauto.
Qed.

Section DirectoryProperties.

Variable S : Type.
Variable is_dir : S -> string -> bool.
Variable mkdir : S -> string -> option S.
Variable path_exists : S -> string -> bool.
Variable isdir : S -> string -> bool.
Variable listdir : S -> string -> list string.
Variable parent_absolute : S -> string -> string.
Variable chdir : string -> S -> S.
Variable probe_source : S -> string -> resolution * list stream.

(** The path [get_output_dir] returns is a line of the input, stripped; it
    is a directory when the call returns, given that a directory that was
    made is one; and the file system is as it was, or that one directory
    has been made in it. *)
Theorem get_output_dir_returns (lines : list string) :
  (forall fs p fs', mkdir fs p = Some fs' -> is_dir fs' p = true) ->
  forall shown fs p rest shown' fs',
    get_output_dir S is_dir mkdir lines shown fs = Return p rest shown' fs' ->
    is_dir fs' p = true
    /\ (exists line, In line lines /\ p = Py.strip line)
    /\ (fs' = fs \/ mkdir fs p = Some fs').
Proof.
  intro Hmk. unfold get_output_dir.
  induction lines as [| l lines IH]; intros shown fs p rest shown' fs';
    cbn [_prompt_input]; [discriminate |].
  unfold validate_output_path at 1.
  destruct (is_dir fs (Py.strip l)) eqn:Hd.
  - intro H. injection H as <- _ _ <-. split; [exact Hd |]. split; [| now left].
    exists l. split; [now left | reflexivity].
  - destruct (mkdir fs (Py.strip l)) as [fs1 |] eqn:Hm.
    + intro H. injection H as <- _ _ <-. split; [eapply Hmk; eassumption |].
      split; [| now right]. exists l. split; [now left | reflexivity].
    + intro H. destruct (IH _ _ _ _ _ _ H) as (H1 & (line & Hin & Hl) & H3).
      split; [exact H1 |]. split; [| exact H3].
      exists line. split; [now right | exact Hl].
Qed.

(** [get_sources] never returns an empty list: what it returns is the scan
    of a path of the input that exists, the listing of the path when it is
    a directory and the path alone when it is not, made after the change
    of directory; the names are the base names of the video files, in
    order. *)
Theorem get_sources_returns (lines : list string) :
  forall shown fs base_dir source_list rest shown' fs',
    get_sources S path_exists isdir listdir parent_absolute chdir probe_source
      lines shown fs
    = Return (base_dir, source_list) rest shown' fs' ->
    source_list <> []
    /\ exists line fs0 files_list,
         In line lines
         /\ path_exists fs0 line = true
         /\ (files_list, base_dir)
            = (if isdir fs0 line then (listdir fs0 line, line)
               else ([line], parent_absolute fs0 line))
         /\ fs' = chdir base_dir fs0
         /\ scan (probe_source fs') files_list = Ok source_list
         /\ map video source_list = map Py.basename (filter is_video files_list).
Proof.
  induction lines as [| l lines IH]; intros shown fs base_dir source_list rest shown' fs';
    cbn [get_sources]; [discriminate |].
  destruct (path_exists fs l) eqn:He; cbn [negb].
  - destruct (if isdir fs l then (listdir fs l, l) else ([l], parent_absolute fs l))
      as [files_list base] eqn:Hf.
    destruct (scan (probe_source (chdir base fs)) files_list) as [sl | e] eqn:Hs;
      [| discriminate].
    destruct sl as [| s sl].
    + intro H. destruct (IH _ _ _ _ _ _ _ H) as (Hne & line & fs0 & fl & Hin & Hrest).
      split; [exact Hne |]. exists line, fs0, fl. split; [now right | exact Hrest].
    + intro H. injection H as <- <- _ _ <-. split; [discriminate |].
      exists l, fs, files_list. split; [now left |]. split; [exact He |].
      split; [now rewrite Hf |]. split; [reflexivity |]. split; [exact Hs |].
      apply (scan_videos _ _ _ Hs).
  - intro H. destruct (IH _ _ _ _ _ _ _ H) as (Hne & line & fs0 & fl & Hin & Hrest).
    split; [exact Hne |]. exists line, fs0, fl. split; [now right | exact Hrest].
Qed.

End DirectoryProperties.

(** The theorem on a listing of two videos and a text file. *)
Lemma scan_lists_videos_sample :
  exists l,
    scan (sample_probe []) ["a.mkv"; "notes.txt"; "b.MP4"] = Ok l
    /\ map video l = ["a.mkv"; "b.MP4"].
Proof.
  destruct (proj1 (proj2 (scan_lists_videos (sample_probe [])
                            ["a.mkv"; "notes.txt"; "b.MP4"])))
    as [l Hl].
  - intros f _ _. unfold in_range, MAX_DIMENSION. cbn. lia.
  - exists l. split; [exact Hl |].
    exact (proj1 (proj1 (scan_lists_videos (sample_probe [])
                           ["a.mkv"; "notes.txt"; "b.MP4"]) l Hl)).
Defined.

(** The theorem on a path that cannot be made and then on [out], which is
    made. *)
Lemma get_output_dir_returns_sample :
  exists shown,
    get_output_dir (list string) sample_is_dir sample_mkdir ["a/b"; " out "]
      [] ["movies"]
    = Return "out" [] shown ["out"; "movies"]
    /\ sample_is_dir ["out"; "movies"] "out" = true.
Proof.
  eexists. split; [vm_compute; reflexivity |].
  refine (proj1 (get_output_dir_returns (list string) sample_is_dir sample_mkdir
                   ["a/b"; " out "] _ [] ["movies"] "out" [] _ ["out"; "movies"] _)).
  - intros fs p fs'. unfold sample_mkdir, sample_is_dir.
    destruct (Py.has_char "/" p); [discriminate |].
    intro H. injection H as <-. cbn [existsb]. now rewrite String.eqb_refl.
  - vm_compute. reflexivity.
Defined.

(** The theorem on a path that does not exist and then on a directory of
    two videos and a text file. *)
Lemma get_sources_returns_sample :
  exists source_list shown,
    get_sources (list string) sample_exists sample_exists sample_listdir
      (fun _ _ => "/") (fun _ fs => fs) sample_probe ["nowhere"; "movies"] [] []
    = Return ("movies", source_list) [] shown []
    /\ map video source_list = ["a.mkv"; "b.MP4"]
    /\ source_list <> [].
Proof.
  eexists. eexists. split; [vm_compute; reflexivity |]. split; [reflexivity |].
  refine (proj1 (get_sources_returns (list string) sample_exists sample_exists
                   sample_listdir (fun _ _ => "/") (fun _ fs => fs) sample_probe
                   ["nowhere"; "movies"] [] [] "movies" _ [] _ [] _)).
  vm_compute. reflexivity.
Defined.

(** ** The crop rectangle and the frame *)

(** When the frame is at least as wide as 4:3, the crop rectangle lies
    inside it: its left edge is not negative, its right edge is not past
    the width, and the margins on the two sides differ by at most one
    pixel, the odd one on the right. *)
Theorem crop_inside_frame (w h : Z) :
  0 < w <= MAX_DIMENSION -> 0 < h <= MAX_DIMENSION -> 4 * h <= 3 * w ->
  exists W X,
    calculate_cropping {| width := w; height := h |}
    = Ok ("crop=" ++ Py.str W ++ ":" ++ Py.str h ++ ":" ++ Py.str X ++ ":0")
    /\ 0 < W /\ 3 * W <= 4 * h < 3 * W + 3
    /\ 0 <= X /\ X + W <= w
    /\ 0 <= (w - (X + W)) - X <= 1.
Proof.
  intros Hw Hh Hr. exists (4 * h / 3), (Z.quot (w - 4 * h / 3) 2).
  split; [now apply calculate_cropping_range |].
  pose proof (Z.div_mod (4 * h) 3 ltac:(lia)) as Hd.
  pose proof (Z.mod_pos_bound (4 * h) 3 ltac:(lia)) as Hm.
  assert (HW : 4 * h / 3 <= w) by (apply Z.div_le_upper_bound; lia).
  rewrite Z.quot_div_nonneg by lia.
  pose proof (Z.div_mod (w - 4 * h / 3) 2 ltac:(lia)) as Hd2.
  pose proof (Z.mod_pos_bound (w - 4 * h / 3) 2 ltac:(lia)) as Hm2.
  assert (0 <= (w - 4 * h / 3) / 2) by (apply Z.div_pos; lia).
  lia.
Qed.

(** The theorem on a 1920 by 1080 frame and on an 853 by 480 one. *)
Lemma crop_inside_frame_sample :
  (exists W X,
      calculate_cropping {| width := 1920; height := 1080 |}
      = Ok ("crop=" ++ Py.str W ++ ":" ++ Py.str 1080 ++ ":" ++ Py.str X ++ ":0")
      /\ 0 < W /\ 3 * W <= 4 * 1080 < 3 * W + 3
      /\ 0 <= X /\ X + W <= 1920 /\ 0 <= (1920 - (X + W)) - X <= 1)
  /\ calculate_cropping {| width := 853; height := 480 |} = Ok "crop=640:480:106:0".
Proof.
  split; [| vm_compute; reflexivity].
  apply (crop_inside_frame 1920 1080); unfold MAX_DIMENSION; lia.
Defined.


(** ** The batch and the files *)

Lemma exists_files (w1 w2 : world) (p : string) :
  files w1 = files w2 -> exists_ w1 p = exists_ w2 p.
Proof. unfold exists_. now intros ->. Qed.

Lemma exists_create (p q : string) (w : world) :
  exists_ (create p w) q = String.eqb q p || exists_ w q.
Proof.
  unfold create, exists_ at 1 3. cbn [files].
  destruct (exists_ w p) eqn:Hp; [| reflexivity].
  destruct (String.eqb q p) eqn:Hq; [| reflexivity].
  apply String.eqb_eq in Hq. subst q. exact Hp.
Qed.

Lemma exists_remove (p q : string) (w : world) :
  exists_ (remove p w) q = exists_ w q && negb (String.eqb q p).
Proof.
  unfold remove, exists_. cbn [files].
  induction (files w) as [| f l IH]; [reflexivity |].
  cbn [filter existsb]. destruct (String.eqb f p) eqn:Hf; cbn [negb existsb].
  - rewrite IH. apply String.eqb_eq in Hf. subst f.
    destruct (String.eqb q p) eqn:Hq; [| reflexivity].
    cbn [orb negb]. now rewrite !andb_false_r.
  - rewrite IH. destruct (String.eqb q f) eqn:Hq; [| reflexivity].
    apply String.eqb_eq in Hq. subst q. now rewrite Hf.
Qed.

Lemma files_resolve_subtitle (c : choice) (s : source) (w : world) :
  files (fst (resolve_subtitle c s w)) = files w.
Proof.
  destruct c as [| | n]; cbn [resolve_subtitle fst]; try reflexivity.
  rewrite has_internal_subtitle_spec. cbv zeta.
  now destruct (_ && _).
Qed.

Lemma join_empty (b : string) : Py.join "" b = b.
Proof. unfold Py.join. now destruct (String.prefix "/" b). Qed.

Section BatchFileProperties.

Variable decode : list byte -> string.
Variable ffmpeg : list string -> child.

Lemma files_convert (source v_bitrate : string) (crop subtitle : option string)
    (resolution output msg : string) (w : world) :
  let process := ffmpeg (convert_cmd source v_bitrate crop subtitle resolution output) in
  files (fst (convert decode ffmpeg source v_bitrate crop subtitle resolution
                output msg w))
  = files (if wrote_output process then create output w else w).
Proof.
  cbv zeta. unfold convert. now destruct (negb (returncode _ =? 0)).
Qed.

Lemma batch_skipped_run (opts : options) (dir : string) (total count : Z)
    (l : list source) :
  overwrite_output opts = false ->
  forall w,
    Forall (fun s => exists_ w (output_path dir s) = true) l ->
    batch decode ffmpeg opts dir total count l w
    = ({| files := files w; listing := listing w;
          stdout := (stdout w ++ skipped_lines total count l)%list |}, Ok tt).
Proof.
  intro Ho. induction l as [| s l IH]; intros w Hl.
  - cbn [batch skipped_lines flat_map]. rewrite app_nil_r. now destruct w.
  - inversion Hl as [| ? ? Hs Hrest]; subst.
    rewrite (batch_skip decode ffmpeg opts dir total count s l w Hs Ho).
    rewrite IH by exact Hrest.
    cbn [print files listing stdout skipped_lines flat_map app].
    now rewrite <- !app_assoc.
Qed.


(** A file that is there before the batch is there after it, however the
    batch ends, unless overwriting is on and the file is at the output path
    of one of the sources. *)
Theorem batch_removes_only_outputs (opts : options) (dir : string)
    (total count : Z) (l : list source) (w : world) (p : string) :
  exists_ w p = true ->
  exists_ (fst (batch decode ffmpeg opts dir total count l w)) p = true
  \/ (overwrite_output opts = true
      /\ exists s, In s l /\ p = output_path dir s).
Proof.
  revert count w.
  induction l as [| s l IH]; intros count w Hp; [now left |].
  cbn [batch].
  set (label := progress_label count total (video s)).
  set (output := Py.join dir (fst (Py.splitext (video s)) ++ ".avi")).
  assert (Hlater : forall count' w',
             exists_ w' p = true ->
             exists_ (fst (batch decode ffmpeg opts dir total count' l w')) p = true
             \/ (overwrite_output opts = true
                 /\ exists s0, In s0 (s :: l) /\ p = output_path dir s0)).
  { intros count' w' Hw'. destruct (IH count' w' Hw') as [H | (Ho & s0 & Hin & Hs0)];
      [now left | right]. split; [exact Ho |]. exists s0. split; [now right | exact Hs0]. }
  destruct (exists_ (print label w) output && negb (overwrite_output opts)) eqn:Hskip.
  - apply Hlater. exact Hp.
  - destruct (String.eqb p output) eqn:Hpo.
    + apply String.eqb_eq in Hpo. right.
      change (exists_ (print label w) output) with (exists_ w output) in Hskip.
      rewrite <- Hpo, Hp in Hskip. cbn [andb] in Hskip.
      split; [now destruct (overwrite_output opts) |].
      exists s. split; [now left | exact Hpo].
    + set (w1 := if exists_ (print label w) output
                 then remove output (print label w) else print label w).
      assert (H1 : exists_ w1 p = true).
      { subst w1. destruct (exists_ (print label w) output); [| exact Hp].
        rewrite exists_remove, Hpo. exact (andb_true_intro (conj Hp eq_refl)). }
      destruct (plan (should_crop opts) s) as [crop resolution].
      pose proof (files_resolve_subtitle (subtitle_choice opts) s w1) as Hf.
      destruct (resolve_subtitle (subtitle_choice opts) s w1) as [w2 [subtitle | e]];
        cbn [fst] in Hf.
      * pose proof (files_convert (video s) (v_bitrate opts) crop subtitle
                      resolution output label w2) as Hc.
        cbv zeta in Hc.
        assert (H3 : exists_ (fst (convert decode ffmpeg (video s) (v_bitrate opts)
                                     crop subtitle resolution output label w2)) p
                     = true).
        { rewrite (exists_files _ _ p Hc).
          destruct (wrote_output _).
          - rewrite exists_create, (exists_files _ _ p Hf), H1. apply orb_true_r.
          - now rewrite (exists_files _ _ p Hf). }
        destruct (convert decode ffmpeg (video s) (v_bitrate opts) crop subtitle
                    resolution output label w2) as [w3 [[] | e]]; cbn [fst] in H3.
        -- apply Hlater. exact H3.
        -- left. exact H3.
      * left. cbn [fst]. now rewrite (exists_files _ _ p Hf).
Qed.


(** A source whose name ends in [.avi], with the empty output directory:
    the output path is the source itself.  With overwriting off the source
    is taken for its output and skipped; with overwriting on it is removed
    before the transcoder is run, and is gone when the transcoder leaves
    no output. *)
Theorem avi_source_in_place (opts : options) (total count : Z) (s : source)
    (rest : list source) (w : world) :
  fst (Py.splitext (video s)) ++ ".avi" = video s ->
  exists_ w (video s) = true ->
  output_path "" s = video s
  /\ (overwrite_output opts = false ->
      batch decode ffmpeg opts "" total count (s :: rest) w
      = batch decode ffmpeg opts "" total count rest
          (print (progress_label count total (video s)
                  ++ " Skipped, file already existed!" ++ NL)
             (print (progress_label count total (video s)) w)))
  /\ (overwrite_output opts = true ->
      (forall cmd, wrote_output (ffmpeg cmd) = false) ->
      exists_ (fst (batch decode ffmpeg opts "" total count [s] w)) (video s)
      = false).
Proof.
  intros Hext Hex.
  assert (Hout : Py.join "" (fst (Py.splitext (video s)) ++ ".avi") = video s)
    by now rewrite join_empty.
  split; [exact Hout |]. split.
  - intro Ho. apply batch_skip; [now rewrite Hout | exact Ho].
  - intros Ho Hnone. cbn [batch]. rewrite Hout, Ho. cbn [negb].
    change (exists_ (print (progress_label count total (video s)) w) (video s))
      with (exists_ w (video s)).
    rewrite Hex. cbn [andb].
    set (w1 := remove (video s) (print (progress_label count total (video s)) w)).
    assert (H1 : exists_ w1 (video s) = false).
    { subst w1. rewrite exists_remove, String.eqb_refl. apply andb_false_r. }
    destruct (plan (should_crop opts) s) as [crop resolution].
    pose proof (files_resolve_subtitle (subtitle_choice opts) s w1) as Hf.
    destruct (resolve_subtitle (subtitle_choice opts) s w1) as [w2 [subtitle | e]];
      cbn [fst] in Hf |- *.
    + pose proof (files_convert (video s) (v_bitrate opts) crop subtitle
                    resolution (video s) (progress_label count total (video s)) w2)
        as Hc.
      cbv zeta in Hc. rewrite Hnone in Hc.
      destruct (convert decode ffmpeg (video s) (v_bitrate opts) crop subtitle
                  resolution (video s) (progress_label count total (video s)) w2)
        as [w3 [[] | e]]; cbn [fst] in Hc |- *.
      * change (exists_ (print _ w3) (video s)) with (exists_ w3 (video s)).
        now rewrite (exists_files _ _ _ Hc), (exists_files _ _ _ Hf).
      * now rewrite (exists_files _ _ _ Hc), (exists_files _ _ _ Hf).
    + now rewrite (exists_files _ _ _ Hf).
Qed.


End BatchFileProperties.


(** With overwriting off and every output there already, the batch runs no
    transcoder and touches no file: it shows, for each source, the label
    and the line that says it was skipped, each with the count it started
    from, and ends normally, the same whatever the transcoder would do. *)
Theorem batch_all_skipped (decode : list byte -> string)
    (ffmpeg : list string -> child) (opts : options) (dir : string)
    (total count : Z) (l : list source) (w : world) :
  overwrite_output opts = false ->
  Forall (fun s => exists_ w (output_path dir s) = true) l ->
  batch decode ffmpeg opts dir total count l w
  = ({| files := files w; listing := listing w;
        stdout := (stdout w ++ skipped_lines total count l)%list |}, Ok tt)
  /\ (forall decode' ffmpeg',
        batch decode' ffmpeg' opts dir total count l w
        = batch decode ffmpeg opts dir total count l w).
Proof.
  intros Ho Hl. split.
  - now apply batch_skipped_run.
  - intros decode' ffmpeg'.
    rewrite (batch_skipped_run decode' ffmpeg' opts dir total count l Ho w Hl).
    symmetry. now apply batch_skipped_run.
Qed.

(** The theorem on three sources whose outputs are all there. *)
Lemma batch_all_skipped_sample :
  let w := {| files := ["out/a.avi"; "out/b.avi"; "out/c.avi"];
              listing := []; stdout := [] |} in
  batch decode_ascii (sample_ffmpeg [] 1) sample_options "out" 3 1 sample_sources w
  = ({| files := files w; listing := [];
        stdout := skipped_lines 3 1 sample_sources |}, Ok tt).
Proof.
  exact (proj1 (batch_all_skipped decode_ascii (sample_ffmpeg [] 1) sample_options
                  "out" 3 1 sample_sources
                  {| files := ["out/a.avi"; "out/b.avi"; "out/c.avi"];
                     listing := []; stdout := [] |}
                  eq_refl ltac:(repeat constructor))).
Defined.

(** The theorem on the file [notes.txt], with overwriting off and a
    transcoder that fails. *)
Lemma batch_removes_only_outputs_sample :
  let w := {| files := ["notes.txt"; "out/b.avi"]; listing := []; stdout := [] |} in
  exists_ (fst (batch decode_ascii (sample_ffmpeg [] 1) sample_options "out" 3 1
                  sample_sources w)) "notes.txt" = true.
Proof.
  cbv zeta.
  destruct (batch_removes_only_outputs decode_ascii (sample_ffmpeg [] 1)
              sample_options "out" 3 1 sample_sources
              {| files := ["notes.txt"; "out/b.avi"]; listing := []; stdout := [] |}
              "notes.txt" eq_refl) as [H | [H _]].
  - exact H.
  - discriminate H.
Defined.



(** The theorem on the source [clip.avi], with overwriting on and a
    transcoder that fails and leaves nothing. *)
Lemma avi_source_in_place_sample :
  let w := {| files := ["clip.avi"]; listing := ["clip.avi"]; stdout := [] |} in
  output_path "" (sample_source "clip.avi") = "clip.avi"
  /\ exists_ (fst (batch decode_ascii
                     (fun _ => {| stderr := []; returncode := 1;
                                  wrote_output := false |})
                     {| v_bitrate := "3000k"; should_crop := false;
                        subtitle_choice := NoSubtitle; overwrite_output := true |}
                     "" 1 1 [sample_source "clip.avi"] w)) "clip.avi" = false.
Proof.
  cbv zeta.
  destruct (avi_source_in_place decode_ascii
              (fun _ => {| stderr := []; returncode := 1; wrote_output := false |})
              {| v_bitrate := "3000k"; should_crop := false;
                 subtitle_choice := NoSubtitle; overwrite_output := true |}
              1 1 (sample_source "clip.avi") []
              {| files := ["clip.avi"]; listing := ["clip.avi"]; stdout := [] |}
              eq_refl eq_refl) as (H1 & _ & H3).
  split; [exact H1 |]. exact (H3 eq_refl (fun _ => eq_refl)).
Defined.

